(** * Announcements endpoints of the High School Management System API

    A shallow embedding of [src/backend/routers/announcements.py] and a
    verification of its contract.

    The router is a thin layer over two MongoDB collections.  The embedding
    keeps that shape: documents are finite maps from field names to BSON
    values, a collection is the list of its documents in natural order, and
    the five endpoints are programs in a small state-and-exception monad
    whose state is the database together with the log of the operations
    issued on the announcements collection. *)

From Stdlib Require Import ZArith NArith Ascii String.
From stdpp Require Import gmap strings sorting list.

Local Open Scope string_scope.
Local Open Scope list_scope.

(** ** Python strings

    Strings are byte strings (UTF-8).  Byte-wise lexicographic order
    coincides with code-point order, so [String.leb] is both Python's and
    MongoDB's (simple collation) string comparison. *)

Module Str.

(** [s.replace(old, new)] for a one-character pattern [old]. *)
Fixpoint replace (old : ascii) (new s : string) : string :=
  match s with
  | "" => ""
  | String c s' =>
      if Ascii.eqb c old then new +:+ replace old new s'
      else String c (replace old new s')
  end.

(** Truth value of a [str]: only the empty string is falsy. *)
Definition truthy (s : string) : bool :=
  match s with "" => false | _ => true end.

(** Truth value of an [Optional[str]]: [None] and [""] are falsy. *)
Definition truthy_opt (o : option string) : bool :=
  match o with Some s => truthy s | None => false end.

End Str.

(** ** bson.ObjectId *)

Module Bson.

(** Value of a hexadecimal digit, upper or lower case. *)
Definition hex_digit (c : ascii) : option N :=
  let n := N_of_ascii c in
  if (48 <=? n)%N && (n <=? 57)%N then Some (n - 48)%N
  else if (97 <=? n)%N && (n <=? 102)%N then Some (n - 87)%N
  else if (65 <=? n)%N && (n <=? 70)%N then Some (n - 55)%N
  else None.

(** [bytes.fromhex]: pairs of hexadecimal digits, ASCII white space being
    skipped between pairs; [None] stands for [ValueError]. *)
Fixpoint fromhex (s : string) : option string :=
  match s with
  | "" => Some ""
  | String c s' =>
      if Ascii.is_space c then fromhex s'
      else
        match hex_digit c, s' with
        | Some hi, String d s'' =>
            match hex_digit d with
            | Some lo => String (ascii_of_N (16 * hi + lo)) <$> fromhex s''
            | None => None
            end
        | _, _ => None
        end
  end.

Definition hex_char (n : N) : ascii :=
  if (n <? 10)%N then ascii_of_N (48 + n) else ascii_of_N (87 + n).

(** [binascii.hexlify]: two lower-case digits per byte. *)
Fixpoint hexlify (b : string) : string :=
  match b with
  | "" => ""
  | String c b' =>
      String (hex_char (N_of_ascii c / 16))
        (String (hex_char (N_of_ascii c mod 16)) (hexlify b'))
  end.

(** An ObjectId wraps its binary representation. *)
Record ObjectId : Type := mkObjectId { binary : string }.

Global Instance ObjectId_eq_dec : EqDecision ObjectId.
Proof. solve_decision. Defined.

(** [ObjectId(oid)] for a [str] argument; [None] stands for
    [bson.errors.InvalidId].  The argument must have 24 characters and be
    accepted by [bytes.fromhex]. *)
Definition of_str (oid : string) : option ObjectId :=
  if (String.length oid =? 24)%nat then mkObjectId <$> fromhex oid
  else None.

(** [ObjectId.is_valid(oid)]. *)
Definition is_valid (oid : string) : bool :=
  if Str.truthy oid then
    match of_str oid with Some _ => true | None => false end
  else false.

(** [str(oid)]. *)
Definition to_str (o : ObjectId) : string := hexlify (binary o).

(** What [ObjectId()] generates: twelve bytes. *)
Definition generated (o : ObjectId) : Prop := String.length (binary o) = 12%nat.

End Bson.

Export Bson (ObjectId, mkObjectId, binary).

(** ** datetime.fromisoformat

    The endpoints only ask whether [datetime.fromisoformat] returns or raises
    [ValueError]; which strings it accepts differs between versions of the
    interpreter.  The endpoints are therefore defined over an arbitrary
    acceptance predicate (see [Section Router]).  [Datetime.fromisoformat]
    below is the grammar documented for CPython 3.7 to 3.10,
    [YYYY-MM-DD[*HH[:MM[:SS[.fff[fff]]]][+HH:MM[:SS[.ffffff]]]]], and serves
    as the instance on which examples are evaluated. *)

Module Datetime.

(** Reads exactly [n] decimal digits. *)
Fixpoint number (n : nat) (acc : nat) (s : string) : option (nat * string) :=
  match n with
  | O => Some (acc, s)
  | S n' =>
      match s with
      | String c s' =>
          d ← Ascii.is_nat c; number n' (10 * acc + d) s'
      | "" => None
      end
  end.

(** Consumes the character [c]. *)
Definition expect (c : ascii) (s : string) : option string :=
  match s with
  | String c' s' => if Ascii.eqb c c' then Some s' else None
  | "" => None
  end.

Definition is_leap (y : nat) : bool :=
  ((y mod 4 =? 0) && (negb (y mod 100 =? 0) || (y mod 400 =? 0)))%nat.

Definition days_in_month (y m : nat) : nat :=
  match m with
  | 2 => if is_leap y then 29 else 28
  | 4 | 6 | 9 | 11 => 30
  | _ => 31
  end.

Definition check (b : bool) : option unit := if b then Some () else None.

(** [YYYY-MM-DD], with the range checks of the [date] constructor. *)
Definition date (s : string) : option string :=
  '(y, s) ← number 4 0 s;
  s ← expect "-" s;
  '(m, s) ← number 2 0 s;
  s ← expect "-" s;
  '(d, s) ← number 2 0 s;
  _ ← check ((1 <=? y) && (1 <=? m) && (m <=? 12)
              && (1 <=? d) && (d <=? days_in_month y m))%nat;
  Some s.

(** [.fff] or [.ffffff]. *)
Definition fraction (s : string) : option string :=
  match number 6 0 s with
  | Some (_, s') => Some s'
  | None => snd <$> number 3 0 s
  end.

(** [HH[:MM[:SS[.fff[fff]]]]] with hours below [hmax]; what follows the
    last component read is returned. *)
Definition hh_mm_ss_ff (hmax : nat) (s : string) : option string :=
  '(h, s) ← number 2 0 s;
  _ ← check (h <? hmax)%nat;
  match expect ":" s with
  | None => Some s
  | Some s =>
      '(m, s) ← number 2 0 s;
      _ ← check (m <? 60)%nat;
      match expect ":" s with
      | None => Some s
      | Some s =>
          '(sec, s) ← number 2 0 s;
          _ ← check (sec <? 60)%nat;
          match expect "." s with
          | None => Some s
          | Some s => fraction s
          end
      end
  end.

(** [+HH:MM[:SS[.ffffff]]] or the same with [-]. *)
Definition offset (s : string) : option string :=
  match s with
  | String c s' =>
      if Ascii.eqb c "+" || Ascii.eqb c "-" then
        '(h, s) ← number 2 0 s';
        _ ← check (h <? 24)%nat;
        s ← expect ":" s;
        '(m, s) ← number 2 0 s;
        _ ← check (m <? 60)%nat;
        match expect ":" s with
        | None => Some s
        | Some s =>
            '(sec, s) ← number 2 0 s;
            _ ← check (sec <? 60)%nat;
            match expect "." s with
            | None => Some s
            | Some s => snd <$> number 6 0 s
            end
        end
      else None
  | "" => None
  end.

Definition parse (s : string) : option string :=
  s ← date s;
  match s with
  | "" => Some ""
  | String _ s =>
      s ← hh_mm_ss_ff 24 s;
      match s with
      | "" => Some ""
      | _ => offset s
      end
  end.

(** [true] when the whole string is read, [false] for [ValueError]. *)
Definition fromisoformat (s : string) : bool :=
  match parse s with Some "" => true | _ => false end.

End Datetime.

(** ** BSON values and documents *)

(** The field values the router reads and writes: strings and ObjectIds. *)
Inductive value : Type :=
  | VStr (s : string)
  | VOid (o : ObjectId).

Global Instance value_eq_dec : EqDecision value.
Proof. solve_decision. Defined.

(** A document, and a Python [dict] with string keys. *)
Abbreviation document := (gmap string value).

(** [str(v)]. *)
Definition py_str (v : value) : string :=
  match v with
  | VStr s => s
  | VOid o => Bson.to_str o
  end.

(** BSON comparison order on the value of a field, a missing field
    counting as null: null sorts before strings, strings before ObjectIds;
    strings and ObjectIds compare byte-wise. *)
Definition bson_leb (a b : option value) : bool :=
  match a, b with
  | None, _ => true
  | Some _, None => false
  | Some (VStr x), Some (VStr y) => String.leb x y
  | Some (VStr _), Some (VOid _) => true
  | Some (VOid _), Some (VStr _) => false
  | Some (VOid x), Some (VOid y) => String.leb (binary x) (binary y)
  end.

Definition bson_le (a b : option value) : Prop := bson_leb a b.

(** ** Query filters and update operators *)

Inductive query : Type :=
  | QAll                              (* {} *)
  | QEq (k : string) (v : value)      (* {k: v} *)
  | QExists (k : string) (b : bool)   (* {k: {"$exists": b}} *)
  | QLte (k : string) (v : value)     (* {k: {"$lte": v}} *)
  | QGte (k : string) (v : value)     (* {k: {"$gte": v}} *)
  | QOr (q1 q2 : query)               (* {"$or": [q1, q2]} *)
  | QAnd (q1 q2 : query).             (* the keys of one filter document *)

(** [$lte] and [$gte] only compare values of the same BSON type; a missing
    field matches neither. *)
Definition cmp_leb (a b : value) : bool :=
  match a, b with
  | VStr x, VStr y => String.leb x y
  | VOid x, VOid y => String.leb (binary x) (binary y)
  | _, _ => false
  end.

Fixpoint matches (q : query) (d : document) : bool :=
  match q with
  | QAll => true
  | QEq k v => bool_decide (d !! k = Some v)
  | QExists k b =>
      match d !! k with
      | Some _ => b
      | None => negb b
      end
  | QLte k v =>
      match d !! k with
      | Some w => cmp_leb w v
      | None => false
      end
  | QGte k v =>
      match d !! k with
      | Some w => cmp_leb v w
      | None => false
      end
  | QOr q1 q2 => matches q1 d || matches q2 d
  | QAnd q1 q2 => matches q1 d && matches q2 d
  end.

Inductive update : Type :=
  | USet (fields : document)          (* {"$set": fields} *)
  | UUnset (k : string).              (* {"$unset": {k: ""}} *)

Definition apply_update (u : update) (d : document) : document :=
  match u with
  | USet fields => fields ∪ d
  | UUnset k => delete k d
  end.

(** ** Collections *)

Module Collection.

(** A collection is the list of its documents in natural order. *)
Abbreviation t := (list document).

(** [find(q)]. *)
Definition find (q : query) (c : t) : t := List.filter (matches q) c.

(** [cursor.sort(k, -1)]: descending on field [k]. *)
Definition sort_desc (k : string) (l : t) : t :=
  merge_sort (λ a b : document, bson_le (b !! k) (a !! k)) l.

(** [find_one(q)]: the first match in natural order. *)
Definition find_one (q : query) (c : t) : option document :=
  List.find (matches q) c.

(** [update_one(q, u)]: updates the first match; returns the collection
    and [matched_count]. *)
Fixpoint update_one (q : query) (u : update) (c : t) : t * nat :=
  match c with
  | [] => ([], 0)
  | d :: c' =>
      if matches q d then (apply_update u d :: c', 1)
      else let '(c'', n) := update_one q u c' in (d :: c'', n)
  end.

(** [delete_one(q)]: removes the first match; returns the collection and
    [deleted_count]. *)
Fixpoint delete_one (q : query) (c : t) : t * nat :=
  match c with
  | [] => ([], 0)
  | d :: c' =>
      if matches q d then (c', 1)
      else let '(c'', n) := delete_one q c' in (d :: c'', n)
  end.

(** The unique index on [_id]: is the key already taken? *)
Definition has_id (v : value) (c : t) : bool :=
  existsb (matches (QEq "_id" v)) c.

End Collection.

(** ** The database, exceptions and the request monad *)

Inductive exn : Type :=
  | HTTPException (status_code : Z) (detail : string)
  | InvalidId (oid : string)          (* bson.errors.InvalidId *)
  | DuplicateKeyError (key : value)   (* pymongo.errors.DuplicateKeyError *)
  | KeyError (k : string)
  | TypeError.

(** The operations a request issues on [announcements_collection]. *)
Inductive call : Type :=
  | CFind (q : query)
  | CFindOne (q : query)
  | CInsertOne (d : document)
  | CUpdateOne (q : query) (u : update)
  | CDeleteOne (q : query).

Record database : Type := mkDatabase {
  teachers_collection : list document;
  announcements_collection : list document;
  calls : list call            (* oldest first *)
}.

Definition M (A : Type) : Type := database → (exn + A) * database.

Definition ret {A} (a : A) : M A := λ db, (inr a, db).
Definition raise {A} (e : exn) : M A := λ db, (inl e, db).
Definition bind {A B} (m : M A) (k : A → M B) : M B :=
  λ db, match m db with
        | (inr a, db') => k a db'
        | (inl e, db') => (inl e, db')
        end.

Declare Scope req_scope.
Delimit Scope req_scope with req.
Notation "x <- m ;; k" := (bind m (λ x, k))
  (at level 100, m at next level, right associativity) : req_scope.
Notation "m ;;; k" := (bind m (λ _, k))
  (at level 100, right associativity) : req_scope.

Local Open Scope req_scope.

(** [for x in l: ...] collecting one result per element. *)
Fixpoint for_each {A B} (f : A → M B) (l : list A) : M (list B) :=
  match l with
  | [] => ret []
  | x :: l' => y <- f x ;; ys <- for_each f l' ;; ret (y :: ys)
  end.

(** *** Operations on the two collections *)

Definition log (c : call) : M unit :=
  λ db, (inr (), mkDatabase (teachers_collection db)
                   (announcements_collection db) (calls db ++ [c])).

Definition store (c : list document) : M unit :=
  λ db, (inr (), mkDatabase (teachers_collection db) c (calls db)).

Definition announcements : M (list document) :=
  λ db, (inr (announcements_collection db), db).

(** [teachers_collection.find_one(q)]. *)
Definition teachers_find_one (q : query) : M (option document) :=
  λ db, (inr (Collection.find_one q (teachers_collection db)), db).

(** [announcements_collection.find(q).sort(k, -1)]. *)
Definition announcements_find_sorted (q : query) (k : string)
  : M (list document) :=
  log (CFind q) ;;;
  c <- announcements ;;
  ret (Collection.sort_desc k (Collection.find q c)).

(** [announcements_collection.find_one(q)]. *)
Definition announcements_find_one (q : query) : M (option document) :=
  log (CFindOne q) ;;;
  c <- announcements ;;
  ret (Collection.find_one q c).

(** [announcements_collection.insert_one(d)]: a document without [_id] gets
    the freshly generated ObjectId [fresh]; the unique index on [_id]
    rejects a key already present.  Returns [inserted_id]. *)
Definition announcements_insert_one (d : document) (fresh : ObjectId)
  : M value :=
  log (CInsertOne d) ;;;
  c <- announcements ;;
  let id := default (VOid fresh) (d !! "_id") in
  if Collection.has_id id c then raise (DuplicateKeyError id)
  else store (c ++ [<["_id" := id]> d]) ;;; ret id.

(** [announcements_collection.update_one(q, u)]; returns [matched_count]. *)
Definition announcements_update_one (q : query) (u : update) : M nat :=
  log (CUpdateOne q u) ;;;
  c <- announcements ;;
  let '(c', n) := Collection.update_one q u c in
  store c' ;;; ret n.

(** [announcements_collection.delete_one(q)]; returns [deleted_count]. *)
Definition announcements_delete_one (q : query) : M nat :=
  log (CDeleteOne q) ;;;
  c <- announcements ;;
  let '(c', n) := Collection.delete_one q c in
  store c' ;;; ret n.

(** [ObjectId(s)]. *)
Definition new_ObjectId (s : string) : M ObjectId :=
  match Bson.of_str s with
  | Some o => ret o
  | None => raise (InvalidId s)
  end.

(** [not teacher], for the result of a [find_one]: [None] and the empty
    dict are falsy. *)
Definition not_found (teacher : option document) : bool :=
  match teacher with
  | None => true
  | Some d => bool_decide (d = ∅)
  end.

(** [announcement["_id"] = str(announcement["_id"])]. *)
Definition stringify_id (announcement : document) : M document :=
  match announcement !! "_id" with
  | Some v => ret (<["_id" := VStr (py_str v)]> announcement)
  | None => raise (KeyError "_id")
  end.

(** ** The endpoints *)

Definition AuthenticationRequired : exn :=
  HTTPException 401 "Authentication required for this action".
Definition InvalidCredentials : exn :=
  HTTPException 401 "Invalid teacher credentials".
Definition InvalidDateFormat : exn :=
  HTTPException 400 "Invalid date format. Use ISO 8601 format".
Definition InvalidIdentifierFormat : exn :=
  HTTPException 400 "Invalid announcement_id format".
Definition NotFound : exn :=
  HTTPException 404 "Announcement not found".

(** The filter built by [get_active_announcements]. *)
Definition active_query (current_time : string) : query :=
  QAnd (QOr (QExists "start_date" false)
            (QLte "start_date" (VStr current_time)))
       (QGte "expiration_date" (VStr current_time)).

(** [GET /announcements].  [utcnow] is [datetime.utcnow().isoformat()]. *)
Definition get_active_announcements (utcnow : string) : M (list document) :=
  let current_time := utcnow +:+ "Z" in
  let query := active_query current_time in
  found <- announcements_find_sorted query "created_at" ;;
  for_each stringify_id found.

(** [GET /announcements/all]. *)
Definition get_all_announcements (teacher_username : option string)
  : M (list document) :=
  if negb (Str.truthy_opt teacher_username) then raise AuthenticationRequired
  else
    teacher <- teachers_find_one
                 (QEq "_id" (VStr (default "" teacher_username))) ;;
    if not_found teacher then raise InvalidCredentials
    else
      found <- announcements_find_sorted QAll "created_at" ;;
      for_each stringify_id found.

Section Router.

(** [fromisoformat s] is [true] when [datetime.fromisoformat(s)] returns
    and [false] when it raises [ValueError]. *)
Variable fromisoformat : string → bool.

(** The [try] block that validates the dates: [true] when no [ValueError]
    is raised. *)
Definition dates_parse (expiration_date : string)
    (start_date : option string) : bool :=
  fromisoformat (Str.replace "Z" "+00:00" expiration_date)
  && (if Str.truthy_opt start_date
      then fromisoformat (Str.replace "Z" "+00:00" (default "" start_date))
      else true).

(** The date string [s] parses as ISO 8601, the way the endpoints check
    it: [datetime.fromisoformat(s.replace("Z", "+00:00"))] returns. *)
Definition parses (s : string) : Prop :=
  fromisoformat (Str.replace "Z" "+00:00" s) = true.

(** [POST /announcements].  [utcnow] is [datetime.utcnow().isoformat()]
    and [fresh] the ObjectId that [insert_one] generates. *)
Definition create_announcement (message expiration_date : string)
    (teacher_username : string) (start_date : option string)
    (utcnow : string) (fresh : ObjectId) : M document :=
  teacher <- teachers_find_one (QEq "_id" (VStr teacher_username)) ;;
  if not_found teacher then raise InvalidCredentials
  else if negb (dates_parse expiration_date start_date)
  then raise InvalidDateFormat
  else
    let announcement : document :=
      {[ "message" := VStr message;
         "expiration_date" := VStr expiration_date;
         "created_by" := VStr teacher_username;
         "created_at" := VStr (utcnow +:+ "Z") ]} in
    let announcement :=
      if Str.truthy_opt start_date
      then <["start_date" := VStr (default "" start_date)]> announcement
      else announcement in
    inserted_id <- announcements_insert_one announcement fresh ;;
    ret (<["_id" := VStr (py_str inserted_id)]> announcement).

(** [PUT /announcements/{announcement_id}]. *)
Definition update_announcement (announcement_id : string)
    (message expiration_date : string) (teacher_username : string)
    (start_date : option string) (utcnow : string) : M document :=
  teacher <- teachers_find_one (QEq "_id" (VStr teacher_username)) ;;
  if not_found teacher then raise InvalidCredentials
  else if negb (dates_parse expiration_date start_date)
  then raise InvalidDateFormat
  else
    let update_data : document :=
      {[ "message" := VStr message;
         "expiration_date" := VStr expiration_date;
         "updated_by" := VStr teacher_username;
         "updated_at" := VStr (utcnow +:+ "Z") ]} in
    update_data <-
      (if Str.truthy_opt start_date
       then ret (<["start_date" := VStr (default "" start_date)]> update_data)
       else
         oid <- new_ObjectId announcement_id ;;
         announcements_update_one (QEq "_id" (VOid oid))
           (UUnset "start_date") ;;;
         ret update_data) ;;
    oid <- new_ObjectId announcement_id ;;
    matched_count <- announcements_update_one (QEq "_id" (VOid oid))
                       (USet update_data) ;;
    if (matched_count =? 0)%nat then raise NotFound
    else
      oid <- new_ObjectId announcement_id ;;
      found <- announcements_find_one (QEq "_id" (VOid oid)) ;;
      match found with
      | None => raise TypeError
      | Some announcement => stringify_id announcement
      end.

End Router.

(** [DELETE /announcements/{announcement_id}]. *)
Definition delete_announcement (announcement_id : string)
    (teacher_username : string) : M (gmap string string) :=
  teacher <- teachers_find_one (QEq "_id" (VStr teacher_username)) ;;
  if not_found teacher then raise InvalidCredentials
  else if negb (Bson.is_valid announcement_id)
  then raise InvalidIdentifierFormat
  else
    oid <- new_ObjectId announcement_id ;;
    deleted_count <- announcements_delete_one (QEq "_id" (VOid oid)) ;;
    if (deleted_count =? 0)%nat then raise NotFound
    else ret {[ "message" := "Announcement deleted successfully" ]}.

(** ** Vocabulary of the specification *)

(** [teacher_username] resolves to an existing teacher record. *)
Definition resolves (db : database) (teacher_username : string) : Prop :=
  ∃ t, t ∈ teachers_collection db ∧ t !! "_id" = Some (VStr teacher_username).

(** Every stored document carries an [_id]; MongoDB guarantees it. *)
Definition well_formed (c : list document) : Prop :=
  Forall (λ d : document, is_Some (d !! "_id")) c.

(** The record as the API surfaces it: the identifier as a string. *)
Definition surface (d : document) : document :=
  match d !! "_id" with
  | Some v => <["_id" := VStr (py_str v)]> d
  | None => d
  end.

(** The active window, in the words of the specification: (start_date
    absent or start_date ≤ now) and expiration_date ≥ now, on strings
    compared lexicographically. *)
Definition active (now : string) (d : document) : Prop :=
  (d !! "start_date" = None
   ∨ ∃ s, d !! "start_date" = Some (VStr s) ∧ (s ≤ now)%string)
  ∧ ∃ e, d !! "expiration_date" = Some (VStr e) ∧ (now ≤ e)%string.

(** The same as a decision procedure. *)
Definition is_active (now : string) (d : document) : bool :=
  match d !! "start_date" with
  | None => true
  | Some (VStr s) => String.leb s now
  | Some _ => false
  end
  && match d !! "expiration_date" with
     | Some (VStr e) => String.leb now e
     | _ => false
     end.

(** The order of a listing: [created_at] descending. *)
Definition created_at_desc (a b : document) : Prop :=
  bson_le (b !! "created_at") (a !! "created_at").

(** The identifier [oid] names no stored announcement. *)
Definition absent (oid : ObjectId) (c : list document) : Prop :=
  ∀ d, d ∈ c → d !! "_id" ≠ Some (VOid oid).

(** The collection [c'] is [c] with the first document named [oid], [old],
    replaced by [new], every other document being kept in place. *)
Definition replaced_at (oid : ObjectId) (old new : document)
    (c c' : list document) : Prop :=
  ∃ l1 l2, c = l1 ++ old :: l2 ∧ c' = l1 ++ new :: l2
           ∧ absent oid l1 ∧ old !! "_id" = Some (VOid oid).

(** The collection [c'] is [c] without the first document named [oid]. *)
Definition removed_at (oid : ObjectId) (c c' : list document) : Prop :=
  ∃ l1 old l2, c = l1 ++ old :: l2 ∧ c' = l1 ++ l2
               ∧ absent oid l1 ∧ old !! "_id" = Some (VOid oid).

(** A database after the request has issued the operations [cs]. *)
Definition logged (db : database) (c : list document) (cs : list call)
  : database :=
  mkDatabase (teachers_collection db) c (calls db ++ cs).

(** The dict that [create_announcement] builds before the insertion. *)
Definition created_record (message expiration_date teacher_username : string)
    (start_date : option string) (utcnow : string) : document :=
  let announcement : document :=
    {[ "message" := VStr message;
       "expiration_date" := VStr expiration_date;
       "created_by" := VStr teacher_username;
       "created_at" := VStr (utcnow +:+ "Z") ]} in
  if Str.truthy_opt start_date
  then <["start_date" := VStr (default "" start_date)]> announcement
  else announcement.

(** The [update_data] that [update_announcement] passes to [$set]. *)
Definition update_fields (message expiration_date teacher_username : string)
    (start_date : option string) (utcnow : string) : document :=
  let update_data : document :=
    {[ "message" := VStr message;
       "expiration_date" := VStr expiration_date;
       "updated_by" := VStr teacher_username;
       "updated_at" := VStr (utcnow +:+ "Z") ]} in
  if Str.truthy_opt start_date
  then <["start_date" := VStr (default "" start_date)]> update_data
  else update_data.

(** The operations [update_announcement] issues before it looks at
    [matched_count]. *)
Definition update_calls (oid : ObjectId) (fields : document)
    (start_date : option string) : list call :=
  (if Str.truthy_opt start_date then []
   else [CUpdateOne (QEq "_id" (VOid oid)) (UUnset "start_date")])
  ++ [CUpdateOne (QEq "_id" (VOid oid)) (USet fields)].

(** The stored record after both operations. *)
Definition updated_record (fields : document) (start_date : option string)
    (old : document) : document :=
  fields ∪ (if Str.truthy_opt start_date then old
            else delete "start_date" old).

(** The fields that [update] writes. *)
Definition written : list string :=
  ["message"; "expiration_date"; "updated_by"; "updated_at"; "start_date"].

(** ** A small database on which the endpoints are evaluated *)

Module Sample.

Definition oid1 : ObjectId := mkObjectId "announce-001".
Definition oid2 : ObjectId := mkObjectId "announce-002".
Definition oid3 : ObjectId := mkObjectId "announce-003".

(** Shown from June 2024 on, until the end of 2030. *)
Definition exams : document :=
  {[ "_id" := VOid oid1;
     "message" := VStr "Exams start on Monday";
     "start_date" := VStr "2024-06-01T00:00:00Z";
     "expiration_date" := VStr "2030-12-31T23:59:59Z";
     "created_by" := VStr "mrodriguez";
     "created_at" := VStr "2024-05-20T08:00:00Z" ]}.

(** Expired in 2023; no start date. *)
Definition fair : document :=
  {[ "_id" := VOid oid2;
     "message" := VStr "Science fair";
     "expiration_date" := VStr "2023-03-01T00:00:00Z";
     "created_by" := VStr "mchen";
     "created_at" := VStr "2023-02-01T08:00:00Z" ]}.

Definition db : database :=
  mkDatabase
    [ {[ "_id" := VStr "mrodriguez" ]}; {[ "_id" := VStr "mchen" ]} ]
    [ fair; exams ]
    [].

Definition utcnow : string := "2025-01-15T10:30:00.000250".

(** [str(oid1)]. *)
Definition id1 : string := "616e6e6f756e63652d303031".

(** The record that creating "Hello" as mrodriguez returns, and the
    database it leaves. *)
Definition hello : document :=
  <["_id" := VStr (Bson.to_str oid3)]>
    (created_record "Hello" "2030-01-01T00:00:00Z" "mrodriguez" None utcnow).

Definition db_hello : database :=
  logged db
    (announcements_collection db
     ++ [<["_id" := VOid oid3]>
           (created_record "Hello" "2030-01-01T00:00:00Z" "mrodriguez" None
              utcnow)])
    [CInsertOne
       (created_record "Hello" "2030-01-01T00:00:00Z" "mrodriguez" None
          utcnow)].

(** [str(oid3)]. *)
Definition id3 : string := "616e6e6f756e63652d303033".

End Sample.

(** ** The store invariant and the router *)

(** The identifiers of a collection, in natural order. *)
Definition ids (c : list document) : list (option value) :=
  (λ d : document, d !! "_id") <$> c.

(** What MongoDB maintains on a collection: every document has an [_id]
    and no two documents share one. *)
Definition consistent (c : list document) : Prop :=
  well_formed c ∧ NoDup (ids c).

(** One constructor per route of the router, with the inputs of its
    handler (and the clock reading and generated ObjectId it consumes). *)
Inductive request : Type :=
  | GetActive (utcnow : string)
  | GetAll (teacher_username : option string)
  | Post (message expiration_date teacher_username : string)
      (start_date : option string) (utcnow : string) (fresh : ObjectId)
  | Put (announcement_id message expiration_date teacher_username : string)
      (start_date : option string) (utcnow : string)
  | Delete (announcement_id teacher_username : string).

(** The exception a handler ended with, if any, and the database it left. *)
Definition outcome {A} (r : (exn + A) * database) : option exn * database :=
  (match r.1 with inl e => Some e | inr _ => None end, r.2).

(** Dispatch of a request to its handler. *)
Definition serve (fromisoformat : string → bool) (r : request)
    (db : database) : option exn * database :=
  match r with
  | GetActive utcnow => outcome (get_active_announcements utcnow db)
  | GetAll teacher_username =>
      outcome (get_all_announcements teacher_username db)
  | Post message expiration_date teacher_username start_date utcnow fresh =>
      outcome (create_announcement fromisoformat message expiration_date
                 teacher_username start_date utcnow fresh db)
  | Put announcement_id message expiration_date teacher_username start_date
      utcnow =>
      outcome (update_announcement fromisoformat announcement_id message
                 expiration_date teacher_username start_date utcnow db)
  | Delete announcement_id teacher_username =>
      outcome (delete_announcement announcement_id teacher_username db)
  end.

(** ** The clock: datetime.utcnow().isoformat() *)

Module Clock.

(** A naive [datetime], its fields within the ranges of the type. *)
Record datetime : Type := mkDatetime {
  year : N; month : N; day : N;
  hour : N; minute : N; second : N; microsecond : N
}.

(** The [width] low decimal digits of [n], zero-padded: [%0<width>d] for a
    number of at most [width] digits. *)
Fixpoint decimal (width : nat) (n : N) : string :=
  match width with
  | O => ""
  | S w => decimal w (n / 10)%N +:+ String (ascii_of_N (48 + n mod 10)) ""
  end.

(** [t.isoformat()]: [YYYY-MM-DDTHH:MM:SS], followed by [.ffffff] only when
    the microsecond is not zero. *)
Definition isoformat (t : datetime) : string :=
  decimal 4 (year t) +:+ "-" +:+ decimal 2 (month t) +:+ "-"
  +:+ decimal 2 (day t) +:+ "T" +:+ decimal 2 (hour t) +:+ ":"
  +:+ decimal 2 (minute t) +:+ ":" +:+ decimal 2 (second t)
  +:+ (if (microsecond t =? 0)%N then ""
       else "." +:+ decimal 6 (microsecond t)).



End Clock.

(** ** Two announcements created half a second apart *)

Module Timeline.

(** 10:30:00 sharp, and half a second later. *)
Definition t1 : Clock.datetime := Clock.mkDatetime 2025 1 15 10 30 0 0.
Definition t2 : Clock.datetime := Clock.mkDatetime 2025 1 15 10 30 0 500000.


Definition db0 : database :=
  mkDatabase (teachers_collection Sample.db) [] [].

Definition older_record : document :=
  created_record "older" "2030-01-01T00:00:00Z" "mrodriguez" None
    (Clock.isoformat t1).

Definition newer_record : document :=
  created_record "newer" "2030-01-01T00:00:00Z" "mrodriguez" None
    (Clock.isoformat t2).


(** The database after the first and after the second creation. *)
Definition db1 : database :=
  logged db0 [<["_id" := VOid Sample.oid1]> older_record]
    [CInsertOne older_record].
Definition db2 : database :=
  logged db1
    [<["_id" := VOid Sample.oid1]> older_record;
     <["_id" := VOid Sample.oid2]> newer_record]
    [CInsertOne newer_record].

End Timeline.

(** * Facts about the libraries *)

Module BsonFacts.
Import Bson.

Lemma fromhex_byte (c : ascii) (rest : string) :
  fromhex (String (hex_char (N_of_ascii c / 16))
             (String (hex_char (N_of_ascii c mod 16)) rest))
  = String c <$> fromhex rest.
Proof. destruct c as [[] [] [] [] [] [] [] []]; reflexivity. Qed.

Lemma fromhex_hexlify (b : string) : fromhex (hexlify b) = Some b.
Proof.
  induction b as [|c b IH]; [reflexivity|].
  cbn [hexlify]. rewrite fromhex_byte, IH. reflexivity.
Qed.

Lemma length_hexlify (b : string) :
  String.length (hexlify b) = 2 * String.length b.
Proof. induction b as [|c b IH]; cbn [hexlify String.length]; lia. Qed.

(** A generated ObjectId is recovered from its string form. *)
Lemma of_str_to_str (o : ObjectId) :
  generated o → of_str (to_str o) = Some o.
Proof.
  destruct o as [b]. unfold generated, of_str, to_str. cbn [binary].
  intros Hlen. rewrite length_hexlify, Hlen. cbn [Nat.mul Nat.add Nat.eqb].
  rewrite fromhex_hexlify. reflexivity.
Qed.

Lemma of_str_empty : of_str "" = None.
Proof. reflexivity. Qed.

(** [is_valid] accepts exactly the strings that [ObjectId] converts. *)
Lemma is_valid_of_str (s : string) :
  is_valid s = true ↔ is_Some (of_str s).
Proof.
  unfold is_valid. destruct s as [|c s].
  - cbn. split; [discriminate|]. intros [? ?]. discriminate.
  - cbn [Str.truthy]. destruct (of_str (String c s)).
    + split; eauto.
    + split; [discriminate|]. intros [? ?]. discriminate.
Qed.

Lemma not_valid_of_str (s : string) :
  is_valid s = false ↔ of_str s = None.
Proof.
  pose proof (is_valid_of_str s) as [H1 H2].
  destruct (is_valid s), (of_str s) as [o|]; split; intros ?; try done.
  - destruct (H1 eq_refl) as [? ?]; discriminate.
  - assert (false = true) by (apply H2; eauto). discriminate.
Qed.

End BsonFacts.

(** ** The BSON order *)

Global Instance bson_le_dec (a b : option value) : Decision (bson_le a b).
Proof. unfold bson_le. apply _. Defined.

Global Instance bson_le_total : Total bson_le.
Proof.
  intros [[x|x]|] [[y|y]|]; unfold bson_le; cbn; auto.
  - apply (total String.le).
  - apply (total String.le).
Qed.

Global Instance bson_le_trans : Transitive bson_le.
Proof.
  intros [[x|x]|] [[y|y]|] [[z|z]|]; unfold bson_le; cbn; auto; try done.
  - apply (transitivity (R := String.le)).
  - apply (transitivity (R := String.le)).
Qed.

Global Instance created_at_desc_dec : RelDecision created_at_desc.
Proof. intros a b. unfold created_at_desc. apply _. Defined.

Global Instance created_at_desc_total : Total created_at_desc.
Proof. intros a b. unfold created_at_desc. destruct (total bson_le (a !! "created_at") (b !! "created_at")); auto. Qed.

Global Instance created_at_desc_trans : Transitive created_at_desc.
Proof. intros a b c Hab Hbc. unfold created_at_desc in *. by etrans. Qed.

Lemma leb_le (x y : string) : String.leb x y = true ↔ (x ≤ y)%string.
Proof. unfold String.le. by rewrite Is_true_true. Qed.

(** The decision procedure decides the active window. *)
Lemma is_active_spec (now : string) (d : document) :
  is_active now d = true ↔ active now d.
Proof.
  unfold is_active, active. rewrite andb_true_iff. split.
  - intros [Hs He]. split.
    + destruct (d !! "start_date") as [[s|o]|]; [|done|by left].
      right. exists s. by rewrite <- leb_le.
    + destruct (d !! "expiration_date") as [[e|o]|]; try done.
      exists e. by rewrite <- leb_le.
  - intros [[->|(s & -> & Hs)] (e & -> & He)]; by rewrite ?leb_le.
Qed.

(** The filter of [get_active_announcements] is the active window. *)
Lemma matches_active_query (now : string) (d : document) :
  matches (active_query now) d = is_active now d.
Proof.
  unfold active_query, is_active. cbn [matches cmp_leb].
  destruct (d !! "start_date") as [[s|o]|], (d !! "expiration_date") as [[e|o']|];
    reflexivity.
Qed.

(** ** Collections *)

Module CollectionFacts.
Import Collection.

Lemma matches_id (v : value) (d : document) :
  matches (QEq "_id" v) d = true ↔ d !! "_id" = Some v.
Proof. cbn [matches]. apply bool_decide_eq_true. Qed.

Lemma not_matches_id (v : value) (d : document) :
  matches (QEq "_id" v) d = false ↔ d !! "_id" ≠ Some v.
Proof. cbn [matches]. apply bool_decide_eq_false. Qed.

(** Either no document is named [oid], or the collection splits at the
    first one that is. *)
Lemma first_named (oid : ObjectId) (c : t) :
  absent oid c
  ∨ ∃ l1 old l2, c = l1 ++ old :: l2 ∧ absent oid l1
                 ∧ old !! "_id" = Some (VOid oid).
Proof.
  induction c as [|d c IH].
  - left. intros d Hd. by apply elem_of_nil in Hd.
  - destruct (decide (d !! "_id" = Some (VOid oid))) as [Hd|Hd].
    + right. exists [], d, c. split_and!; [done| |done].
      intros x Hx. by apply elem_of_nil in Hx.
    + destruct IH as [IH|(l1 & old & l2 & -> & Hl1 & Hold)].
      * left. intros x [->|Hx]%elem_of_cons; auto.
      * right. exists (d :: l1), old, l2. split_and!; [done| |done].
        intros x [->|Hx]%elem_of_cons; auto.
Qed.

Lemma find_one_absent (oid : ObjectId) (c : t) :
  absent oid c → find_one (QEq "_id" (VOid oid)) c = None.
Proof.
  unfold find_one. induction c as [|d c IH]; intros Habs; [done|].
  cbn [List.find]. rewrite (proj2 (not_matches_id _ _)).
  - apply IH. intros x Hx. apply Habs. by right.
  - apply Habs. by left.
Qed.

Lemma find_one_first (oid : ObjectId) (l1 l2 : t) (d : document) :
  absent oid l1 → d !! "_id" = Some (VOid oid) →
  find_one (QEq "_id" (VOid oid)) (l1 ++ d :: l2) = Some d.
Proof.
  unfold find_one. induction l1 as [|x l1 IH]; intros Habs Hd.
  - cbn [app List.find]. by rewrite (proj2 (matches_id _ _)).
  - cbn [app List.find]. rewrite (proj2 (not_matches_id _ _)).
    + apply IH; [|done]. intros y Hy. apply Habs. by right.
    + apply Habs. by left.
Qed.

Lemma update_one_absent (oid : ObjectId) (u : update) (c : t) :
  absent oid c → update_one (QEq "_id" (VOid oid)) u c = (c, 0).
Proof.
  induction c as [|d c IH]; intros Habs; [done|].
  cbn [update_one]. rewrite (proj2 (not_matches_id _ _)).
  - rewrite IH; [done|]. intros x Hx. apply Habs. by right.
  - apply Habs. by left.
Qed.

Lemma update_one_first (oid : ObjectId) (u : update) (l1 l2 : t)
    (d : document) :
  absent oid l1 → d !! "_id" = Some (VOid oid) →
  update_one (QEq "_id" (VOid oid)) u (l1 ++ d :: l2)
  = (l1 ++ apply_update u d :: l2, 1).
Proof.
  induction l1 as [|x l1 IH]; intros Habs Hd.
  - cbn [app update_one]. by rewrite (proj2 (matches_id _ _)).
  - cbn [app update_one]. rewrite (proj2 (not_matches_id _ _)).
    + rewrite IH; [done| |done]. intros y Hy. apply Habs. by right.
    + apply Habs. by left.
Qed.

Lemma delete_one_absent (oid : ObjectId) (c : t) :
  absent oid c → delete_one (QEq "_id" (VOid oid)) c = (c, 0).
Proof.
  induction c as [|d c IH]; intros Habs; [done|].
  cbn [delete_one]. rewrite (proj2 (not_matches_id _ _)).
  - rewrite IH; [done|]. intros x Hx. apply Habs. by right.
  - apply Habs. by left.
Qed.

Lemma delete_one_first (oid : ObjectId) (l1 l2 : t) (d : document) :
  absent oid l1 → d !! "_id" = Some (VOid oid) →
  delete_one (QEq "_id" (VOid oid)) (l1 ++ d :: l2) = (l1 ++ l2, 1).
Proof.
  induction l1 as [|x l1 IH]; intros Habs Hd.
  - cbn [app delete_one]. by rewrite (proj2 (matches_id _ _)).
  - cbn [app delete_one]. rewrite (proj2 (not_matches_id _ _)).
    + rewrite IH; [done| |done]. intros y Hy. apply Habs. by right.
    + apply Habs. by left.
Qed.

Lemma has_id_false (oid : ObjectId) (c : t) :
  has_id (VOid oid) c = false ↔ absent oid c.
Proof.
  unfold has_id, absent. induction c as [|d c IH].
  - split; [|done]. intros _ d Hd. by apply elem_of_nil in Hd.
  - cbn [existsb]. rewrite orb_false_iff, IH, not_matches_id. split.
    + intros [Hd Hc] x [->|Hx]%elem_of_cons; auto.
    + intros H. split; [apply H; by left|]. intros x Hx. apply H. by right.
Qed.

(** The teacher check fails exactly when no record has the key. *)
Lemma find_one_teacher (ts : t) (u : string) :
  not_found (find_one (QEq "_id" (VStr u)) ts) = false
  ↔ ∃ d, d ∈ ts ∧ d !! "_id" = Some (VStr u).
Proof.
  unfold find_one. split.
  - destruct (List.find _ ts) as [d|] eqn:Hf; [|done]. intros _.
    apply find_some in Hf as [Hin Hm]. exists d.
    split; [by apply list_elem_of_In|by apply matches_id].
  - intros (d & Hin & Hd).
    destruct (List.find _ ts) as [d'|] eqn:Hf.
    + apply find_some in Hf as [_ Hm%matches_id]. cbn [not_found].
      apply bool_decide_eq_false. intros ->. by rewrite lookup_empty in Hm.
    + apply list_elem_of_In in Hin.
      pose proof (find_none _ _ Hf d Hin) as Hm.
      apply not_matches_id in Hm. done.
Qed.

End CollectionFacts.

(** * The endpoints *)

(** Unfolds the plumbing of the request monad. *)
Ltac run :=
  repeat progress
    (unfold bind, ret, raise, log, store, announcements, teachers_find_one,
       announcements_find_sorted, announcements_find_one,
       announcements_insert_one, announcements_update_one,
       announcements_delete_one, new_ObjectId, logged;
     cbn [teachers_collection announcements_collection calls
          Nat.eqb negb apply_update py_str]).

Lemma teacher_resolves (db : database) (u : string) :
  resolves db u →
  not_found (Collection.find_one (QEq "_id" (VStr u))
               (teachers_collection db)) = false.
Proof. intros H. by apply CollectionFacts.find_one_teacher. Qed.

Global Instance resolves_dec (db : database) (u : string) :
  Decision (resolves db u).
Proof.
  destruct (not_found (Collection.find_one (QEq "_id" (VStr u))
                         (teachers_collection db))) eqn:H.
  - right. intros Hres. apply CollectionFacts.find_one_teacher in Hres.
    congruence.
  - left. by apply CollectionFacts.find_one_teacher.
Defined.

Lemma teacher_unknown (db : database) (u : string) :
  ¬ resolves db u →
  not_found (Collection.find_one (QEq "_id" (VStr u))
               (teachers_collection db)) = true.
Proof.
  intros H. apply not_false_iff_true. intros Hf. apply H.
  by apply CollectionFacts.find_one_teacher.
Qed.

(** ** Surfacing the identifier *)

Lemma surface_lookup_ne (k : string) (d : document) :
  k ≠ "_id" → surface d !! k = d !! k.
Proof.
  intros Hk. unfold surface. destruct (d !! "_id"); [|done].
  by rewrite lookup_insert_ne.
Qed.

Lemma surface_named (d : document) (v : value) :
  d !! "_id" = Some v → surface d = <["_id" := VStr (py_str v)]> d.
Proof. intros H. unfold surface. by rewrite H. Qed.

Lemma is_active_surface (now : string) (d : document) :
  is_active now (surface d) = is_active now d.
Proof. unfold is_active. by rewrite !surface_lookup_ne. Qed.

Lemma stringify_id_surface (d : document) (db : database) :
  is_Some (d !! "_id") → stringify_id d db = (inr (surface d), db).
Proof. intros [v Hv]. unfold stringify_id, surface. by rewrite Hv. Qed.

(** The loop that surfaces the identifiers of a listing. *)
Lemma for_each_stringify (l : list document) (db : database) :
  well_formed l →
  for_each stringify_id l db = (inr (surface <$> l), db).
Proof.
  induction 1 as [|d l Hd Hl IH]; [done|].
  cbn [for_each]. unfold bind at 1. rewrite stringify_id_surface by done.
  unfold bind at 1. rewrite IH. done.
Qed.


Lemma well_formed_listing (q : query) (c : list document) :
  well_formed c →
  well_formed (Collection.sort_desc "created_at" (Collection.find q c)).
Proof.
  unfold well_formed, Collection.sort_desc, Collection.find. intros H.
  rewrite merge_sort_Permutation. rewrite Forall_forall in *.
  intros d Hd. apply H. apply list_elem_of_In in Hd.
  apply filter_In in Hd as [Hd _]. by apply list_elem_of_In.
Qed.


Lemma get_active_announcements_run (utcnow : string) (db : database) :
  well_formed (announcements_collection db) →
  get_active_announcements utcnow db
  = (inr (surface <$> Collection.sort_desc "created_at"
            (Collection.find (active_query (utcnow +:+ "Z"))
               (announcements_collection db))),
     logged db (announcements_collection db)
       [CFind (active_query (utcnow +:+ "Z"))]).
Proof.
  intros Hwf. unfold get_active_announcements. run.
  by rewrite for_each_stringify by by apply well_formed_listing.
Qed.

Lemma get_all_announcements_run (u : string) (db : database) :
  u ≠ "" → resolves db u → well_formed (announcements_collection db) →
  get_all_announcements (Some u) db
  = (inr (surface <$> Collection.sort_desc "created_at"
            (Collection.find QAll (announcements_collection db))),
     logged db (announcements_collection db) [CFind QAll]).
Proof.
  intros Hu Hres Hwf. unfold get_all_announcements.
  destruct u as [|a u]; [done|]. cbn [Str.truthy_opt Str.truthy negb from_option id].
  run. rewrite teacher_resolves by done.
  by rewrite for_each_stringify by by apply well_formed_listing.
Qed.

Lemma find_all (c : list document) : Collection.find QAll c = c.
Proof.
  unfold Collection.find. induction c as [|d c IH]; [done|].
  cbn [List.filter]. change (matches QAll d) with true. cbn iota.
  by rewrite IH.
Qed.

(** C1.  On a store whose documents carry their identifier, [list_active]
    returns, with no effect on the store, exactly the stored announcements
    whose active window contains the current time: the result is a
    rearrangement of the active ones (identifier surfaced), and a stored
    announcement is in it iff (start_date is absent or start_date ≤ now)
    and expiration_date ≥ now, on strings compared lexicographically. *)
Theorem list_active_exact (utcnow : string) (db : database) :
  well_formed (announcements_collection db) →
  let now := utcnow +:+ "Z" in
  ∃ result,
    get_active_announcements utcnow db
    = (inr result,
       logged db (announcements_collection db) [CFind (active_query now)])
    ∧ result ≡ₚ surface <$> List.filter (is_active now)
                              (announcements_collection db)
    ∧ ∀ d, d ∈ announcements_collection db →
           (surface d ∈ result ↔ active now d).
Proof.
  intros Hwf now. subst now. eexists.
  split; [by apply get_active_announcements_run|].
  assert (Hperm :
    surface <$> Collection.sort_desc "created_at"
      (Collection.find (active_query (utcnow +:+ "Z"))
         (announcements_collection db))
    ≡ₚ surface <$> List.filter (is_active (utcnow +:+ "Z"))
                     (announcements_collection db)).
  { unfold Collection.sort_desc, Collection.find.
    rewrite merge_sort_Permutation.
    rewrite (filter_ext _ _ (matches_active_query (utcnow +:+ "Z"))).
    done. }
  split; [done|].
  intros d Hd. rewrite Hperm, <- is_active_spec, list_elem_of_fmap. split.
  - intros (d' & Heq & Hd'). apply list_elem_of_In, filter_In in Hd'.
    destruct Hd' as [_ Hact].
    by rewrite <- is_active_surface, Heq, is_active_surface.
  - intros Hact. exists d. split; [done|].
    apply list_elem_of_In, filter_In. split; [by apply list_elem_of_In|done].
Qed.




(** C6, as amended.  [list_all] fails with AuthenticationRequired when no
    [teacher_username] is supplied or the one supplied is the empty string;
    it fails with InvalidCredentials when a non-empty [teacher_username]
    does not resolve to a teacher record; and for a non-empty one that
    resolves it returns every stored announcement, whatever its active
    window, leaving the store as it was. *)
Theorem list_all_contract (db : database) :
  get_all_announcements None db = (inl AuthenticationRequired, db)
  ∧ get_all_announcements (Some "") db = (inl AuthenticationRequired, db)
  ∧ ∀ u, u ≠ "" →
      (¬ resolves db u →
       get_all_announcements (Some u) db = (inl InvalidCredentials, db))
      ∧ (resolves db u → well_formed (announcements_collection db) →
         ∃ result,
           get_all_announcements (Some u) db
           = (inr result,
              logged db (announcements_collection db) [CFind QAll])
           ∧ result ≡ₚ surface <$> announcements_collection db).
Proof.
  split_and!; [done|done|]. intros u Hu. split.
  - intros Hres. unfold get_all_announcements.
    destruct u as [|a u]; [done|].
    cbn [Str.truthy_opt Str.truthy negb from_option id]. run.
    by rewrite teacher_unknown.
  - intros Hres Hwf. eexists. split; [by apply get_all_announcements_run|].
    rewrite find_all. unfold Collection.sort_desc.
    by rewrite merge_sort_Permutation.
Qed.

(** ** delete *)

(** C4.  For a [delete] by a teacher that resolves: a malformed identifier
    fails with InvalidIdentifierFormat and nothing at all is issued on the
    announcement store; a well-formed identifier that names no record fails
    with NotFound, the store keeping its documents; otherwise the first
    record it names is removed and the confirmation is returned. *)
Theorem delete_announcement_contract (db : database)
    (announcement_id teacher_username : string) :
  resolves db teacher_username →
  (Bson.is_valid announcement_id = false →
   delete_announcement announcement_id teacher_username db
   = (inl InvalidIdentifierFormat, db))
  ∧ (Bson.is_valid announcement_id = true →
     ∃ oid, Bson.of_str announcement_id = Some oid
       ∧ (absent oid (announcements_collection db) →
          delete_announcement announcement_id teacher_username db
          = (inl NotFound,
             logged db (announcements_collection db)
               [CDeleteOne (QEq "_id" (VOid oid))]))
       ∧ (¬ absent oid (announcements_collection db) →
          ∃ c', removed_at oid (announcements_collection db) c'
            ∧ delete_announcement announcement_id teacher_username db
              = (inr {[ "message" := "Announcement deleted successfully" ]},
                 logged db c' [CDeleteOne (QEq "_id" (VOid oid))]))).
Proof.
  intros Hres. split.
  - intros Hinv. unfold delete_announcement. run.
    by rewrite teacher_resolves, Hinv by done.
  - intros Hval.
    destruct (proj1 (BsonFacts.is_valid_of_str _) Hval) as [oid Hoid].
    exists oid. split; [done|]. split.
    + intros Habs. unfold delete_announcement. run.
      rewrite teacher_resolves, Hval, Hoid by done. cbn [negb].
      by rewrite CollectionFacts.delete_one_absent.
    + intros Hex.
      destruct (CollectionFacts.first_named oid (announcements_collection db))
        as [Habs|(l1 & old & l2 & Hc & Hl1 & Hold)]; [done|].
      exists (l1 ++ l2). split; [by exists l1, old, l2|].
      unfold delete_announcement. run.
      rewrite teacher_resolves, Hval, Hoid by done. cbn [negb].
      by rewrite Hc, CollectionFacts.delete_one_first.
Qed.

Lemma delete_announcement_unknown_teacher (db : database)
    (announcement_id teacher_username : string) :
  ¬ resolves db teacher_username →
  delete_announcement announcement_id teacher_username db
  = (inl InvalidCredentials, db).
Proof.
  intros Hres. unfold delete_announcement. run. by rewrite teacher_unknown.
Qed.

(** ** create and update *)

Section RouterFacts.

Variable fromisoformat : string → bool.

Lemma dates_parse_true (e : string) (s : option string) :
  parses fromisoformat e →
  (∀ sd, s = Some sd → sd ≠ "" → parses fromisoformat sd) →
  dates_parse fromisoformat e s = true.
Proof.
  unfold parses, dates_parse. intros -> Hs. cbn [andb].
  destruct s as [[|a sd]|]; [done| |done].
  cbn [Str.truthy_opt Str.truthy from_option id]. by apply Hs.
Qed.

Lemma dates_parse_false (e : string) (s : option string) :
  ¬ parses fromisoformat e
  ∨ (∃ sd, s = Some sd ∧ sd ≠ "" ∧ ¬ parses fromisoformat sd) →
  dates_parse fromisoformat e s = false.
Proof.
  unfold parses, dates_parse.
  intros [He|(sd & -> & Hne & Hsd)].
  - apply not_true_is_false in He. by rewrite He.
  - apply not_true_is_false in Hsd. destruct sd as [|a sd]; [done|].
    cbn [Str.truthy_opt Str.truthy from_option id]. rewrite Hsd.
    apply andb_false_r.
Qed.

Lemma created_record_id (m e u : string) (s : option string)
    (now : string) :
  created_record m e u s now !! "_id" = None.
Proof.
  unfold created_record. destruct (Str.truthy_opt s); by simplify_map_eq.
Qed.

(** What [create] does once the teacher and the dates are accepted. *)
Lemma create_announcement_run (db : database) (m e u : string)
    (s : option string) (now : string) (fresh : ObjectId) :
  resolves db u → dates_parse fromisoformat e s = true →
  create_announcement fromisoformat m e u s now fresh db
  = if Collection.has_id (VOid fresh) (announcements_collection db)
    then (inl (DuplicateKeyError (VOid fresh)),
          logged db (announcements_collection db)
            [CInsertOne (created_record m e u s now)])
    else (inr (<["_id" := VStr (Bson.to_str fresh)]>
                 (created_record m e u s now)),
          logged db
            (announcements_collection db
             ++ [<["_id" := VOid fresh]> (created_record m e u s now)])
            [CInsertOne (created_record m e u s now)]).
Proof.
  intros Hres Hdates. unfold create_announcement. run.
  rewrite teacher_resolves, Hdates by done. cbn [negb].
  change (if Str.truthy_opt s then _ else _)
    with (created_record m e u s now).
  rewrite created_record_id. cbn [from_option id py_str].
  by destruct (Collection.has_id _ _).
Qed.

Lemma create_announcement_inv (db db' : database) (m e u : string)
    (s : option string) (now : string) (fresh : ObjectId) (a : document) :
  create_announcement fromisoformat m e u s now fresh db = (inr a, db') →
  absent fresh (announcements_collection db)
  ∧ a = <["_id" := VStr (Bson.to_str fresh)]> (created_record m e u s now)
  ∧ db' = logged db
            (announcements_collection db
             ++ [<["_id" := VOid fresh]> (created_record m e u s now)])
            [CInsertOne (created_record m e u s now)].
Proof.
  unfold create_announcement. run.
  destruct (not_found _); [discriminate|].
  destruct (dates_parse _ _ _); [|discriminate]. cbn [negb].
  change (if Str.truthy_opt s then _ else _)
    with (created_record m e u s now).
  rewrite created_record_id. cbn [from_option id py_str].
  destruct (Collection.has_id _ _) eqn:Hid; [discriminate|].
  intros [= <- <-]. by apply CollectionFacts.has_id_false in Hid.
Qed.

Lemma created_record_fields (m e u : string) (s : option string)
    (now : string) :
  created_record m e u s now !! "message" = Some (VStr m)
  ∧ created_record m e u s now !! "expiration_date" = Some (VStr e)
  ∧ created_record m e u s now !! "created_by" = Some (VStr u)
  ∧ created_record m e u s now !! "created_at" = Some (VStr (now +:+ "Z"))
  ∧ created_record m e u s now !! "start_date"
    = (if Str.truthy_opt s then VStr <$> s else None).
Proof.
  unfold created_record. destruct s as [[|c sd]|];
    cbn [Str.truthy_opt Str.truthy from_option id];
    split_and!; by simplify_map_eq.
Qed.

(** C2, as amended.  A [create] whose [teacher_username] does not resolve
    fails with InvalidCredentials; one whose teacher resolves and whose
    [expiration_date], or whose non-empty [start_date], does not parse
    fails with InvalidDateFormat.  In both cases the database is left
    exactly as it was: no record is inserted and no operation is issued
    on the announcement store. *)
Theorem create_rejects_without_insert (db : database) (m e u : string)
    (s : option string) (now : string) (fresh : ObjectId) :
  (¬ resolves db u →
   create_announcement fromisoformat m e u s now fresh db
   = (inl InvalidCredentials, db))
  ∧ (resolves db u →
     ¬ parses fromisoformat e
     ∨ (∃ sd, s = Some sd ∧ sd ≠ "" ∧ ¬ parses fromisoformat sd) →
     create_announcement fromisoformat m e u s now fresh db
     = (inl InvalidDateFormat, db)).
Proof.
  split.
  - intros Hres. unfold create_announcement. run.
    by rewrite teacher_unknown.
  - intros Hres Hbad. unfold create_announcement. run.
    by rewrite teacher_resolves, dates_parse_false.
Qed.

(** C8.  After a successful [create(message, expiration_date)], looking
    the returned identifier up at once finds a record with the same
    message and the same expiration_date string, the identifier the store
    assigned (returned to the caller as its string form) and a
    [created_at] timestamp. *)
Theorem create_round_trip (db db' : database) (m e u : string)
    (s : option string) (now : string) (fresh : ObjectId) (a : document) :
  Bson.generated fresh →
  create_announcement fromisoformat m e u s now fresh db = (inr a, db') →
  ∃ id r,
    a !! "_id" = Some (VStr id)
    ∧ a !! "message" = Some (VStr m)
    ∧ a !! "expiration_date" = Some (VStr e)
    ∧ (oid <- new_ObjectId id ;;
       announcements_find_one (QEq "_id" (VOid oid))) db'
      = (inr (Some r),
         logged db' (announcements_collection db')
           [CFindOne (QEq "_id" (VOid fresh))])
    ∧ r !! "message" = Some (VStr m)
    ∧ r !! "expiration_date" = Some (VStr e)
    ∧ r !! "_id" = Some (VOid fresh)
    ∧ id = Bson.to_str fresh
    ∧ r !! "created_at" = Some (VStr (now +:+ "Z")).
Proof.
  intros Hgen Hrun.
  apply create_announcement_inv in Hrun as (Habs & -> & ->).
  destruct (created_record_fields m e u s now) as (Hm & He & _ & Hat & _).
  exists (Bson.to_str fresh),
    (<["_id" := VOid fresh]> (created_record m e u s now)).
  split_and!; try by simplify_map_eq.
  run. rewrite BsonFacts.of_str_to_str by done. run.
  rewrite CollectionFacts.find_one_first; [done|done|].
  apply lookup_insert_eq.
Qed.

Lemma update_fields_id (m e u : string) (s : option string)
    (now : string) :
  update_fields m e u s now !! "_id" = None.
Proof.
  unfold update_fields. destruct (Str.truthy_opt s); by simplify_map_eq.
Qed.

Lemma updated_record_id (fields : document) (s : option string)
    (old : document) (v : value) :
  fields !! "_id" = None → old !! "_id" = Some v →
  updated_record fields s old !! "_id" = Some v.
Proof.
  intros Hf Hold. unfold updated_record. rewrite lookup_union_r by done.
  destruct (Str.truthy_opt s); [done|]. by rewrite lookup_delete_ne.
Qed.

Lemma update_announcement_unknown_teacher (db : database)
    (id m e u : string) (s : option string) (now : string) :
  ¬ resolves db u →
  update_announcement fromisoformat id m e u s now db
  = (inl InvalidCredentials, db).
Proof.
  intros Hres. unfold update_announcement. run.
  by rewrite teacher_unknown.
Qed.

Lemma update_announcement_bad_dates (db : database)
    (id m e u : string) (s : option string) (now : string) :
  resolves db u → dates_parse fromisoformat e s = false →
  update_announcement fromisoformat id m e u s now db
  = (inl InvalidDateFormat, db).
Proof.
  intros Hres Hd. unfold update_announcement. run.
  by rewrite teacher_resolves, Hd.
Qed.

(** The identifier is converted before anything is sent to the store. *)
Lemma update_announcement_malformed (db : database)
    (id m e u : string) (s : option string) (now : string) :
  resolves db u → dates_parse fromisoformat e s = true →
  Bson.of_str id = None →
  update_announcement fromisoformat id m e u s now db
  = (inl (InvalidId id), db).
Proof.
  intros Hres Hd Hid. unfold update_announcement. run.
  rewrite teacher_resolves, Hd, Hid by done. cbn [negb].
  by destruct (Str.truthy_opt s).
Qed.

Lemma update_announcement_absent (db : database)
    (id m e u : string) (s : option string) (now : string)
    (oid : ObjectId) :
  resolves db u → dates_parse fromisoformat e s = true →
  Bson.of_str id = Some oid →
  absent oid (announcements_collection db) →
  update_announcement fromisoformat id m e u s now db
  = (inl NotFound,
     logged db (announcements_collection db)
       (update_calls oid (update_fields m e u s now) s)).
Proof.
  intros Hres Hd Hid Habs. unfold update_announcement. run.
  rewrite teacher_resolves, Hd, Hid by done. cbn [negb].
  unfold update_calls, update_fields.
  destruct (Str.truthy_opt s); run;
    rewrite ?CollectionFacts.update_one_absent by done; run;
    rewrite ?CollectionFacts.update_one_absent by done; run;
    cbn [Nat.eqb app]; by rewrite <- ?app_assoc.
Qed.

Lemma update_announcement_found (db : database)
    (id m e u : string) (s : option string) (now : string)
    (oid : ObjectId) (l1 l2 : list document) (old : document) :
  resolves db u → dates_parse fromisoformat e s = true →
  Bson.of_str id = Some oid →
  announcements_collection db = l1 ++ old :: l2 →
  absent oid l1 → old !! "_id" = Some (VOid oid) →
  let new := updated_record (update_fields m e u s now) s old in
  update_announcement fromisoformat id m e u s now db
  = (inr (<["_id" := VStr (Bson.to_str oid)]> new),
     logged db (l1 ++ new :: l2)
       (update_calls oid (update_fields m e u s now) s
        ++ [CFindOne (QEq "_id" (VOid oid))])).
Proof.
  intros Hres Hd Hid Hc Hl1 Hold new.
  assert (Hnew : new !! "_id" = Some (VOid oid))
    by (by apply updated_record_id; [apply update_fields_id|]).
  subst new. revert Hnew.
  unfold update_announcement. run.
  rewrite teacher_resolves, Hd, Hid by done. cbn [negb].
  unfold update_calls, updated_record, update_fields.
  destruct (Str.truthy_opt s); intros Hnew; run; rewrite Hc.
  - rewrite CollectionFacts.update_one_first by done. run.
    rewrite CollectionFacts.find_one_first by done.
    unfold stringify_id. rewrite Hnew. run.
    by rewrite <- ?app_assoc.
  - rewrite CollectionFacts.update_one_first by done. run.
    rewrite CollectionFacts.update_one_first
      by (by rewrite ?lookup_delete_ne). run.
    rewrite CollectionFacts.find_one_first by done.
    unfold stringify_id. rewrite Hnew. run.
    by rewrite <- ?app_assoc.
Qed.

Lemma update_announcement_inv (db db' : database) (id m e u : string)
    (s : option string) (now : string) (a : document) :
  update_announcement fromisoformat id m e u s now db = (inr a, db') →
  ∃ oid old l1 l2,
    Bson.of_str id = Some oid
    ∧ announcements_collection db = l1 ++ old :: l2
    ∧ absent oid l1 ∧ old !! "_id" = Some (VOid oid)
    ∧ a = <["_id" := VStr (Bson.to_str oid)]>
            (updated_record (update_fields m e u s now) s old)
    ∧ db' = logged db
              (l1 ++ updated_record (update_fields m e u s now) s old :: l2)
              (update_calls oid (update_fields m e u s now) s
               ++ [CFindOne (QEq "_id" (VOid oid))]).
Proof.
  intros H.
  destruct (decide (resolves db u)) as [Hres|Hres];
    [|by rewrite update_announcement_unknown_teacher in H].
  destruct (dates_parse fromisoformat e s) eqn:Hd;
    [|by rewrite update_announcement_bad_dates in H].
  destruct (Bson.of_str id) as [oid|] eqn:Hid;
    [|by rewrite update_announcement_malformed in H].
  destruct (CollectionFacts.first_named oid (announcements_collection db))
    as [Habs|(l1 & old & l2 & Hc & Hl1 & Hold)].
  - by rewrite (update_announcement_absent _ _ _ _ _ _ _ oid) in H.
  - rewrite (update_announcement_found _ _ _ _ _ _ _ oid l1 l2 old) in H
      by done.
    injection H as <- <-. by exists oid, old, l1, l2.
Qed.

Lemma update_fields_fields (m e u : string) (s : option string)
    (now : string) :
  let fields := update_fields m e u s now in
  fields !! "message" = Some (VStr m)
  ∧ fields !! "expiration_date" = Some (VStr e)
  ∧ fields !! "updated_by" = Some (VStr u)
  ∧ fields !! "updated_at" = Some (VStr (now +:+ "Z"))
  ∧ fields !! "start_date"
    = (if Str.truthy_opt s then VStr <$> s else None)
  ∧ ∀ k, k ∉ written → fields !! k = None.
Proof.
  unfold update_fields, written. destruct s as [[|c sd]|];
    cbn [Str.truthy_opt Str.truthy from_option id];
    split_and!; try by simplify_map_eq.
  all: intros k Hk; rewrite !not_elem_of_cons in Hk;
    destruct Hk as (? & ? & ? & ? & ? & _); by simplify_map_eq.
Qed.

Lemma updated_record_fields (m e u : string) (s : option string)
    (now : string) (old : document) :
  let new := updated_record (update_fields m e u s now) s old in
  new !! "message" = Some (VStr m)
  ∧ new !! "expiration_date" = Some (VStr e)
  ∧ new !! "updated_by" = Some (VStr u)
  ∧ new !! "updated_at" = Some (VStr (now +:+ "Z"))
  ∧ new !! "start_date"
    = (if Str.truthy_opt s then VStr <$> s else None)
  ∧ ∀ k, k ∉ written → new !! k = old !! k.
Proof.
  destruct (update_fields_fields m e u s now)
    as (Hm & He & Hby & Hat & Hs & Hk).
  unfold updated_record. split_and!.
  - by apply lookup_union_Some_l.
  - by apply lookup_union_Some_l.
  - by apply lookup_union_Some_l.
  - by apply lookup_union_Some_l.
  - destruct (Str.truthy_opt s) eqn:Ht.
    + destruct s as [sd|]; [|done]. by apply lookup_union_Some_l.
    + rewrite lookup_union_r by done. apply lookup_delete_eq.
  - intros k Hnot. rewrite lookup_union_r by by apply Hk.
    destruct (Str.truthy_opt s); [done|]. apply lookup_delete_ne.
    intros <-. apply Hnot. unfold written. set_solver.
Qed.

Lemma parses_nonempty (sd : string) :
  fromisoformat "" = false → parses fromisoformat sd → sd ≠ "".
Proof. unfold parses. intros Hempty Hsd ->. cbn in Hsd. congruence. Qed.

(** C3.  For valid inputs (the teacher resolves, [expiration_date] and a
    supplied [start_date] parse, the identifier converts) and an existing
    announcement, [update] succeeds: the first record named by the
    identifier gets the new message, expiration_date, updated_by and
    updated_at, and its start_date becomes the supplied one or is removed
    when none is supplied; every other field, created_by and created_at
    among them, and every other record is unchanged; the updated record
    is returned with its identifier as a string.  When start_date is
    omitted the removal is issued on its own, before the field-set, and
    whether or not the target exists. *)
Theorem update_announcement_frame (db : database) (id m e u : string)
    (s : option string) (now : string) (oid : ObjectId) :
  resolves db u →
  parses fromisoformat e →
  (∀ sd, s = Some sd → parses fromisoformat sd) →
  fromisoformat "" = false →
  Bson.of_str id = Some oid →
  let q := QEq "_id" (VOid oid) in
  let fields := update_fields m e u s now in
  ((∃ d, d ∈ announcements_collection db ∧ d !! "_id" = Some (VOid oid)) →
   ∃ old new c',
     replaced_at oid old new (announcements_collection db) c'
     ∧ update_announcement fromisoformat id m e u s now db
       = (inr (surface new),
          logged db c'
            match s with
            | Some _ => [CUpdateOne q (USet fields); CFindOne q]
            | None => [CUpdateOne q (UUnset "start_date");
                       CUpdateOne q (USet fields); CFindOne q]
            end)
     ∧ new !! "message" = Some (VStr m)
     ∧ new !! "expiration_date" = Some (VStr e)
     ∧ new !! "updated_by" = Some (VStr u)
     ∧ new !! "updated_at" = Some (VStr (now +:+ "Z"))
     ∧ new !! "start_date" = VStr <$> s
     ∧ (∀ k, k ∉ written → new !! k = old !! k)
     ∧ new !! "created_by" = old !! "created_by"
     ∧ new !! "created_at" = old !! "created_at")
  ∧ (s = None →
     fields !! "start_date" = None
     ∧ ∃ rest,
         calls (snd (update_announcement fromisoformat id m e u s now db))
         = calls db ++ CUpdateOne q (UUnset "start_date")
                       :: CUpdateOne q (USet fields) :: rest).
Proof.
  intros Hres He Hs Hempty Hid q fields.
  assert (Hd : dates_parse fromisoformat e s = true)
    by (apply dates_parse_true; auto).
  assert (Ht : Str.truthy_opt s = match s with Some _ => true | None => false end).
  { destruct s as [sd|]; [|done].
    pose proof (parses_nonempty sd Hempty (Hs sd eq_refl)).
    by destruct sd. }
  split.
  - intros (d & Hin & Hd').
    destruct (CollectionFacts.first_named oid (announcements_collection db))
      as [Habs|(l1 & old & l2 & Hc & Hl1 & Hold)]; [by destruct (Habs d)|].
    pose (new := updated_record fields s old).
    destruct (updated_record_fields m e u s now old)
      as (Hm & Hexp & Hby & Hat & Hstart & Hk).
    exists old, new, (l1 ++ new :: l2).
    split; [by exists l1, l2|]. split.
    + rewrite (update_announcement_found db id m e u s now oid l1 l2 old)
        by done.
      rewrite (surface_named new (VOid oid))
        by (by apply updated_record_id; [apply update_fields_id|]).
      subst new fields q. unfold update_calls. rewrite Ht.
      by destruct s.
    + split_and!; try done.
      * subst new fields. rewrite Hstart, Ht. by destruct s.
      * apply Hk. by apply (bool_decide_unpack _).
      * apply Hk. by apply (bool_decide_unpack _).
  - intros ->. split.
    { by destruct (update_fields_fields m e u None now) as (_&_&_&_&?&_). }
    destruct (CollectionFacts.first_named oid (announcements_collection db))
      as [Habs|(l1 & old & l2 & Hc & Hl1 & Hold)].
    + exists []. by rewrite (update_announcement_absent _ _ _ _ _ _ _ oid).
    + exists [CFindOne q].
      by rewrite (update_announcement_found _ _ _ _ _ _ _ oid l1 l2 old).
Qed.

(** C10.  [update] does not validate [announcement_id]: with a teacher
    that resolves and dates that pass validation, a malformed identifier
    makes the conversion raise [InvalidId], which is none of the errors of
    the taxonomy (neither InvalidIdentifierFormat nor NotFound, nor any
    HTTP error); the request ends there, the database being exactly as it
    was, nothing having been issued on the announcement store. *)
Theorem update_malformed_identifier (db : database) (id m e u : string)
    (s : option string) (now : string) :
  resolves db u →
  parses fromisoformat e →
  (∀ sd, s = Some sd → sd ≠ "" → parses fromisoformat sd) →
  Bson.is_valid id = false →
  update_announcement fromisoformat id m e u s now db
  = (inl (InvalidId id), db)
  ∧ InvalidId id ≠ InvalidIdentifierFormat
  ∧ InvalidId id ≠ NotFound
  ∧ ∀ status_code detail, InvalidId id ≠ HTTPException status_code detail.
Proof.
  intros Hres He Hs Hid. split_and!; try done.
  apply update_announcement_malformed; [done| |].
  - by apply dates_parse_true.
  - by apply BsonFacts.not_valid_of_str.
Qed.

(** C9.  An empty-string [start_date] is treated as an absent one: [create]
    and [update] behave exactly as if it had not been given.  It is never
    parsed, so with a teacher that resolves and an [expiration_date] that
    parses neither fails with InvalidDateFormat; a record created with it
    has no [start_date] field; and an update with it leaves the record
    without a [start_date] field, the removal having been issued. *)
Theorem empty_start_date_is_absent (db : database) (id m e u : string)
    (now : string) (fresh : ObjectId) :
  create_announcement fromisoformat m e u (Some "") now fresh db
  = create_announcement fromisoformat m e u None now fresh db
  ∧ update_announcement fromisoformat id m e u (Some "") now db
    = update_announcement fromisoformat id m e u None now db
  ∧ (resolves db u → parses fromisoformat e →
     fst (create_announcement fromisoformat m e u (Some "") now fresh db)
     ≠ inl InvalidDateFormat
     ∧ fst (update_announcement fromisoformat id m e u (Some "") now db)
       ≠ inl InvalidDateFormat)
  ∧ (∀ a db',
       create_announcement fromisoformat m e u (Some "") now fresh db
       = (inr a, db') →
       a !! "start_date" = None
       ∧ ∃ r, announcements_collection db'
              = announcements_collection db ++ [r]
              ∧ r !! "start_date" = None)
  ∧ (∀ a db',
       update_announcement fromisoformat id m e u (Some "") now db
       = (inr a, db') →
       a !! "start_date" = None
       ∧ ∃ oid old r,
           Bson.of_str id = Some oid
           ∧ replaced_at oid old r (announcements_collection db)
               (announcements_collection db')
           ∧ r !! "start_date" = None
           ∧ CUpdateOne (QEq "_id" (VOid oid)) (UUnset "start_date")
             ∈ calls db').
Proof.
  split; [reflexivity|]. split; [reflexivity|]. split_and!.
  - intros Hres He.
    assert (Hd : dates_parse fromisoformat e (Some "") = true)
      by (apply dates_parse_true; [done|]; by intros sd [= <-]).
    split.
    + rewrite create_announcement_run by done.
      by destruct (Collection.has_id _ _).
    + destruct (Bson.of_str id) as [oid|] eqn:Hid;
        [|by rewrite update_announcement_malformed].
      destruct (CollectionFacts.first_named oid
                  (announcements_collection db))
        as [Habs|(l1 & old & l2 & Hc & Hl1 & Hold)].
      * by rewrite (update_announcement_absent _ _ _ _ _ _ _ oid).
      * by rewrite (update_announcement_found _ _ _ _ _ _ _ oid l1 l2 old).
  - intros a db' Hrun.
    apply create_announcement_inv in Hrun as (_ & -> & ->).
    destruct (created_record_fields m e u (Some "") now) as (_&_&_&_&Hs).
    split; [by rewrite lookup_insert_ne|].
    eexists. split; [reflexivity|]. by rewrite lookup_insert_ne.
  - intros a db' Hrun.
    apply update_announcement_inv in Hrun
      as (oid & old & l1 & l2 & Hid & Hc & Hl1 & Hold & -> & ->).
    destruct (updated_record_fields m e u (Some "") now old)
      as (_&_&_&_&Hs&_).
    split; [by rewrite lookup_insert_ne|].
    exists oid, old, (updated_record (update_fields m e u (Some "") now)
                        (Some "") old).
    split_and!; [done| |done|].
    + by exists l1, l2.
    + unfold logged, update_calls. cbn [calls Str.truthy_opt Str.truthy].
      set_solver.
Qed.
End RouterFacts.

(** * The endpoints on the sample database *)

Module SampleFacts.
Import Sample.

(** Closes a decidable goal by evaluation. *)
Ltac evaluate := apply (bool_decide_unpack _); vm_compute; exact I.

Example id1_names_oid1 : Bson.of_str id1 = Some oid1.
Proof. vm_compute. reflexivity. Qed.

(** At the sample time only the exams announcement is active. *)
Example active_listing :
  get_active_announcements utcnow db
  = (inr [surface exams],
     logged db [fair; exams] [CFind (active_query (utcnow +:+ "Z"))]).
Proof. vm_compute. reflexivity. Qed.

Example all_listing :
  get_all_announcements (Some "mchen") db
  = (inr [surface exams; surface fair],
     logged db [fair; exams] [CFind QAll]).
Proof. vm_compute. reflexivity. Qed.

Example unparsed_expiration :
  fst (create_announcement Datetime.fromisoformat "Hello" "not-a-date"
         "mrodriguez" None utcnow oid3 db)
  = inl InvalidDateFormat.
Proof. vm_compute. reflexivity. Qed.

End SampleFacts.

Lemma list_active_exact_witness :
  ∃ result,
    get_active_announcements Sample.utcnow Sample.db
    = (inr result,
       logged Sample.db (announcements_collection Sample.db)
         [CFind (active_query (Sample.utcnow +:+ "Z"))])
    ∧ result ≡ₚ surface <$> List.filter (is_active (Sample.utcnow +:+ "Z"))
                              (announcements_collection Sample.db)
    ∧ ∀ d, d ∈ announcements_collection Sample.db →
           (surface d ∈ result ↔ active (Sample.utcnow +:+ "Z") d).
Proof.
  apply (list_active_exact Sample.utcnow Sample.db). SampleFacts.evaluate.
Defined.


(** C6, as stated, fails: an empty [teacher_username] is supplied and
    resolves to no teacher, yet the failure is AuthenticationRequired and
    not InvalidCredentials. *)
Lemma list_all_empty_username :
  ¬ resolves Sample.db ""
  ∧ get_all_announcements (Some "") Sample.db
    = (inl AuthenticationRequired, Sample.db)
  ∧ AuthenticationRequired ≠ InvalidCredentials.
Proof.
  split_and!; [|reflexivity|discriminate]. SampleFacts.evaluate.
Qed.

Lemma list_all_contract_witness :
  ∃ result,
    get_all_announcements (Some "mchen") Sample.db
    = (inr result,
       logged Sample.db (announcements_collection Sample.db) [CFind QAll])
    ∧ result ≡ₚ surface <$> announcements_collection Sample.db.
Proof.
  destruct (list_all_contract Sample.db) as (_ & _ & H).
  destruct (H "mchen") as [_ Hok]; [discriminate|].
  apply Hok; SampleFacts.evaluate.
Defined.

Lemma delete_announcement_contract_witness :
  delete_announcement "abc" "mrodriguez" Sample.db
  = (inl InvalidIdentifierFormat, Sample.db)
  ∧ ∃ c', removed_at Sample.oid1 (announcements_collection Sample.db) c'
      ∧ delete_announcement Sample.id1 "mrodriguez" Sample.db
        = (inr {[ "message" := "Announcement deleted successfully" ]},
           logged Sample.db c'
             [CDeleteOne (QEq "_id" (VOid Sample.oid1))]).
Proof.
  split.
  - apply (delete_announcement_contract Sample.db "abc" "mrodriguez");
      [SampleFacts.evaluate|reflexivity].
  - destruct (delete_announcement_contract Sample.db Sample.id1 "mrodriguez")
      as [_ H]; [SampleFacts.evaluate|].
    destruct H as (oid & Hoid & _ & H); [reflexivity|].
    assert (oid = Sample.oid1) as ->
      by (pose proof SampleFacts.id1_names_oid1; congruence).
    apply H. intros Habs. apply (Habs Sample.exams); [|reflexivity].
    apply list_elem_of_In. right. by left.
Defined.

(** C2, as stated, fails: the supplied [start_date] is the empty string,
    which does not parse, yet [create] succeeds and inserts the record. *)
Lemma create_accepts_empty_start_date :
  ¬ parses Datetime.fromisoformat ""
  ∧ ∃ a r,
      create_announcement Datetime.fromisoformat "Hello"
        "2030-01-01T00:00:00Z" "mrodriguez" (Some "") Sample.utcnow
        Sample.oid3 Sample.db
      = (inr a, logged Sample.db (announcements_collection Sample.db ++ [r])
                  [CInsertOne (delete "_id" r)])
      ∧ r !! "message" = Some (VStr "Hello").
Proof.
  split; [discriminate|].
  eexists _, (<["_id" := VOid Sample.oid3]>
                (created_record "Hello" "2030-01-01T00:00:00Z" "mrodriguez"
                   (Some "") Sample.utcnow)).
  split; vm_compute; reflexivity.
Qed.

Lemma create_rejects_without_insert_witness :
  create_announcement Datetime.fromisoformat "Hello" "2030-01-01T00:00:00Z"
    "nobody" None Sample.utcnow Sample.oid3 Sample.db
  = (inl InvalidCredentials, Sample.db)
  ∧ create_announcement Datetime.fromisoformat "Hello" "not-a-date"
      "mrodriguez" None Sample.utcnow Sample.oid3 Sample.db
    = (inl InvalidDateFormat, Sample.db)
  ∧ create_announcement Datetime.fromisoformat "Hello" "2030-01-01T00:00:00Z"
      "mrodriguez" (Some "tomorrow") Sample.utcnow Sample.oid3 Sample.db
    = (inl InvalidDateFormat, Sample.db).
Proof.
  split_and!.
  - apply (create_rejects_without_insert Datetime.fromisoformat Sample.db).
    SampleFacts.evaluate.
  - apply (create_rejects_without_insert Datetime.fromisoformat Sample.db);
      [SampleFacts.evaluate|]. left. discriminate.
  - apply (create_rejects_without_insert Datetime.fromisoformat Sample.db);
      [SampleFacts.evaluate|]. right. exists "tomorrow".
    split_and!; [reflexivity|discriminate|discriminate].
Defined.

Lemma create_round_trip_witness :
  let a := <["_id" := VStr (Bson.to_str Sample.oid3)]>
             (created_record "Hello" "2030-01-01T00:00:00Z" "mrodriguez"
                None Sample.utcnow) in
  let db' := logged Sample.db
               (announcements_collection Sample.db
                ++ [<["_id" := VOid Sample.oid3]>
                      (created_record "Hello" "2030-01-01T00:00:00Z"
                         "mrodriguez" None Sample.utcnow)])
               [CInsertOne (created_record "Hello" "2030-01-01T00:00:00Z"
                              "mrodriguez" None Sample.utcnow)] in
  ∃ id r,
    a !! "_id" = Some (VStr id)
    ∧ a !! "message" = Some (VStr "Hello")
    ∧ a !! "expiration_date" = Some (VStr "2030-01-01T00:00:00Z")
    ∧ (oid <- new_ObjectId id ;;
       announcements_find_one (QEq "_id" (VOid oid))) db'
      = (inr (Some r),
         logged db' (announcements_collection db')
           [CFindOne (QEq "_id" (VOid Sample.oid3))])
    ∧ r !! "message" = Some (VStr "Hello")
    ∧ r !! "expiration_date" = Some (VStr "2030-01-01T00:00:00Z")
    ∧ r !! "_id" = Some (VOid Sample.oid3)
    ∧ id = Bson.to_str Sample.oid3
    ∧ r !! "created_at" = Some (VStr (Sample.utcnow +:+ "Z")).
Proof.
  intros a db'.
  apply (create_round_trip Datetime.fromisoformat Sample.db db' "Hello"
           "2030-01-01T00:00:00Z" "mrodriguez" None Sample.utcnow
           Sample.oid3 a).
  - reflexivity.
  - vm_compute. reflexivity.
Defined.

Lemma update_announcement_frame_witness :
  let q := QEq "_id" (VOid Sample.oid1) in
  let fields := update_fields "Exams start on Tuesday" "2031-06-30T00:00:00Z"
                  "mchen" None Sample.utcnow in
  ∃ old new c',
    replaced_at Sample.oid1 old new (announcements_collection Sample.db) c'
    ∧ update_announcement Datetime.fromisoformat Sample.id1
        "Exams start on Tuesday" "2031-06-30T00:00:00Z" "mchen" None
        Sample.utcnow Sample.db
      = (inr (surface new),
         logged Sample.db c'
           [CUpdateOne q (UUnset "start_date");
            CUpdateOne q (USet fields); CFindOne q])
    ∧ new !! "message" = Some (VStr "Exams start on Tuesday")
    ∧ new !! "expiration_date" = Some (VStr "2031-06-30T00:00:00Z")
    ∧ new !! "updated_by" = Some (VStr "mchen")
    ∧ new !! "updated_at" = Some (VStr (Sample.utcnow +:+ "Z"))
    ∧ new !! "start_date" = None
    ∧ (∀ k, k ∉ written → new !! k = old !! k)
    ∧ new !! "created_by" = old !! "created_by"
    ∧ new !! "created_at" = old !! "created_at".
Proof.
  destruct (update_announcement_frame Datetime.fromisoformat Sample.db
              Sample.id1 "Exams start on Tuesday" "2031-06-30T00:00:00Z"
              "mchen" None Sample.utcnow Sample.oid1) as [H _].
  - SampleFacts.evaluate.
  - reflexivity.
  - intros sd Hsd. discriminate Hsd.
  - reflexivity.
  - vm_compute. reflexivity.
  - apply H. exists Sample.exams. split; [|reflexivity].
    apply list_elem_of_In. right. left. reflexivity.
Defined.

Lemma update_malformed_identifier_witness :
  update_announcement Datetime.fromisoformat "abc" "Updated"
    "2031-01-01T00:00:00Z" "mrodriguez" (Some "2025-02-01") Sample.utcnow
    Sample.db
  = (inl (InvalidId "abc"), Sample.db)
  ∧ InvalidId "abc" ≠ InvalidIdentifierFormat
  ∧ InvalidId "abc" ≠ NotFound
  ∧ ∀ status_code detail,
      InvalidId "abc" ≠ HTTPException status_code detail.
Proof.
  apply (update_malformed_identifier Datetime.fromisoformat Sample.db "abc"
           "Updated" "2031-01-01T00:00:00Z" "mrodriguez" (Some "2025-02-01")
           Sample.utcnow).
  - SampleFacts.evaluate.
  - reflexivity.
  - intros sd Hsd _. injection Hsd as <-. reflexivity.
  - reflexivity.
Defined.

(** C5 on the code.  No stored announcement has the identifier ["abc"], the
    teacher resolves and the date parses; [update] nevertheless ends with
    [InvalidId], raised by the conversion of the identifier, and not with
    NotFound. *)
Theorem update_unknown_malformed_identifier :
  (∀ d, d ∈ announcements_collection Sample.db →
        py_str <$> d !! "_id" ≠ Some "abc")
  ∧ resolves Sample.db "mrodriguez"
  ∧ parses Datetime.fromisoformat "2031-01-01T00:00:00Z"
  ∧ update_announcement Datetime.fromisoformat "abc" "Updated"
      "2031-01-01T00:00:00Z" "mrodriguez" None Sample.utcnow Sample.db
    = (inl (InvalidId "abc"), Sample.db)
  ∧ InvalidId "abc" ≠ NotFound.
Proof.
  split_and!; [|SampleFacts.evaluate|reflexivity|by vm_compute|discriminate].
  intros d Hd.
  repeat (apply elem_of_cons in Hd as [->|Hd]);
    [| |by apply elem_of_nil in Hd]; vm_compute; discriminate.
Qed.

Lemma empty_start_date_is_absent_witness :
  fst (create_announcement Datetime.fromisoformat "Hello"
         "2030-01-01T00:00:00Z" "mrodriguez" (Some "") Sample.utcnow
         Sample.oid3 Sample.db)
  ≠ inl InvalidDateFormat
  ∧ fst (update_announcement Datetime.fromisoformat Sample.id1 "Hello"
           "2030-01-01T00:00:00Z" "mrodriguez" (Some "") Sample.utcnow
           Sample.db)
    ≠ inl InvalidDateFormat.
Proof.
  destruct (empty_start_date_is_absent Datetime.fromisoformat Sample.db
              Sample.id1 "Hello" "2030-01-01T00:00:00Z" "mrodriguez"
              Sample.utcnow Sample.oid3) as (_ & _ & H & _).
  apply H; [SampleFacts.evaluate|reflexivity].
Defined.

(** * Further properties of the endpoints *)

(** ** Every way a handler can end *)

Lemma for_each_stringify_cons (d : document) (l : list document)
    (db : database) :
  for_each stringify_id (d :: l) db
  = match d !! "_id" with
    | None => (inl (KeyError "_id"), db)
    | Some v =>
        match for_each stringify_id l db with
        | (inr ys, db') => (inr (<["_id" := VStr (py_str v)]> d :: ys), db')
        | (inl e, db') => (inl e, db')
        end
    end.
Proof.
  cbn [for_each]. unfold bind, stringify_id, ret, raise.
  destruct (d !! "_id"); [|done].
  by destruct (for_each stringify_id l db) as [[e|ys] db'].
Qed.

Lemma for_each_stringify_cases (l : list document) (db : database) :
  for_each stringify_id l db = (inr (surface <$> l), db)
  ∨ for_each stringify_id l db = (inl (KeyError "_id"), db).
Proof.
  induction l as [|d l IH]; [by left|].
  rewrite for_each_stringify_cons.
  destruct (d !! "_id") as [v|] eqn:Hv; [|by right].
  destruct IH as [-> | ->]; [left|by right].
  csimpl. by rewrite (surface_named d v).
Qed.

Lemma get_active_announcements_cases (utcnow : string) (db : database) :
  let found := Collection.sort_desc "created_at"
                 (Collection.find (active_query (utcnow +:+ "Z"))
                    (announcements_collection db)) in
  let db' := logged db (announcements_collection db)
               [CFind (active_query (utcnow +:+ "Z"))] in
  get_active_announcements utcnow db = (inr (surface <$> found), db')
  ∨ get_active_announcements utcnow db = (inl (KeyError "_id"), db').
Proof.
  intros found db'. unfold get_active_announcements. run.
  apply for_each_stringify_cases.
Qed.

Lemma get_all_announcements_cases (u : option string) (db : database) :
  let found := Collection.sort_desc "created_at"
                 (Collection.find QAll (announcements_collection db)) in
  let db' := logged db (announcements_collection db) [CFind QAll] in
  get_all_announcements u db = (inl AuthenticationRequired, db)
  ∨ get_all_announcements u db = (inl InvalidCredentials, db)
  ∨ get_all_announcements u db = (inr (surface <$> found), db')
  ∨ get_all_announcements u db = (inl (KeyError "_id"), db').
Proof.
  intros found db'. unfold get_all_announcements.
  destruct (negb (Str.truthy_opt u)); [by left|]. run.
  destruct (not_found _); [by right; left|]. right. right.
  apply for_each_stringify_cases.
Qed.

Lemma delete_announcement_invalid (db : database) (id u : string) :
  resolves db u → Bson.is_valid id = false →
  delete_announcement id u db = (inl InvalidIdentifierFormat, db).
Proof.
  intros Hres Hid. unfold delete_announcement. run.
  by rewrite teacher_resolves, Hid.
Qed.

Lemma delete_announcement_absent (db : database) (id u : string)
    (oid : ObjectId) :
  resolves db u → Bson.of_str id = Some oid →
  absent oid (announcements_collection db) →
  delete_announcement id u db
  = (inl NotFound,
     logged db (announcements_collection db)
       [CDeleteOne (QEq "_id" (VOid oid))]).
Proof.
  intros Hres Hid Habs. unfold delete_announcement. run.
  rewrite teacher_resolves by done.
  rewrite (proj2 (BsonFacts.is_valid_of_str id)) by (by rewrite Hid).
  rewrite Hid. run. by rewrite CollectionFacts.delete_one_absent.
Qed.

Lemma delete_announcement_found (db : database) (id u : string)
    (oid : ObjectId) (l1 l2 : list document) (old : document) :
  resolves db u → Bson.of_str id = Some oid →
  announcements_collection db = l1 ++ old :: l2 →
  absent oid l1 → old !! "_id" = Some (VOid oid) →
  delete_announcement id u db
  = (inr {[ "message" := "Announcement deleted successfully" ]},
     logged db (l1 ++ l2) [CDeleteOne (QEq "_id" (VOid oid))]).
Proof.
  intros Hres Hid Hc Hl1 Hold. unfold delete_announcement. run.
  rewrite teacher_resolves by done.
  rewrite (proj2 (BsonFacts.is_valid_of_str id)) by (by rewrite Hid).
  rewrite Hid. run. by rewrite Hc, CollectionFacts.delete_one_first.
Qed.

Lemma delete_announcement_cases (db : database) (id u : string) :
  delete_announcement id u db = (inl InvalidCredentials, db)
  ∨ delete_announcement id u db = (inl InvalidIdentifierFormat, db)
  ∨ (∃ oid, Bson.of_str id = Some oid
       ∧ absent oid (announcements_collection db)
       ∧ delete_announcement id u db
         = (inl NotFound,
            logged db (announcements_collection db)
              [CDeleteOne (QEq "_id" (VOid oid))]))
  ∨ (∃ oid l1 old l2, Bson.of_str id = Some oid
       ∧ resolves db u
       ∧ announcements_collection db = l1 ++ old :: l2
       ∧ absent oid l1 ∧ old !! "_id" = Some (VOid oid)
       ∧ delete_announcement id u db
         = (inr {[ "message" := "Announcement deleted successfully" ]},
            logged db (l1 ++ l2) [CDeleteOne (QEq "_id" (VOid oid))])).
Proof.
  destruct (decide (resolves db u)) as [Hres|Hres];
    [|left; by apply delete_announcement_unknown_teacher].
  destruct (Bson.of_str id) as [oid|] eqn:Hid.
  - destruct (CollectionFacts.first_named oid (announcements_collection db))
      as [Habs|(l1 & old & l2 & Hc & Hl1 & Hold)].
    + right; right; left. exists oid.
      split_and!; [done|done|by apply delete_announcement_absent].
    + right; right; right. exists oid, l1, old, l2.
      split_and!; try done. by apply (delete_announcement_found db id u oid l1 l2 old).
  - right; left. apply delete_announcement_invalid; [done|].
    by apply BsonFacts.not_valid_of_str.
Qed.

Section HandlerCases.

Variable fromisoformat : string → bool.

Lemma create_announcement_cases (db : database) (m e u : string)
    (s : option string) (now : string) (fresh : ObjectId) :
  let record := created_record m e u s now in
  create_announcement fromisoformat m e u s now fresh db
  = (inl InvalidCredentials, db)
  ∨ create_announcement fromisoformat m e u s now fresh db
    = (inl InvalidDateFormat, db)
  ∨ create_announcement fromisoformat m e u s now fresh db
    = (inl (DuplicateKeyError (VOid fresh)),
       logged db (announcements_collection db) [CInsertOne record])
  ∨ (resolves db u ∧ absent fresh (announcements_collection db)
     ∧ create_announcement fromisoformat m e u s now fresh db
       = (inr (<["_id" := VStr (Bson.to_str fresh)]> record),
          logged db
            (announcements_collection db ++ [<["_id" := VOid fresh]> record])
            [CInsertOne record])).
Proof.
  intros record.
  destruct (decide (resolves db u)) as [Hres|Hres].
  2:{ left. unfold create_announcement. run. by rewrite teacher_unknown. }
  destruct (dates_parse fromisoformat e s) eqn:Hd.
  2:{ right; left. unfold create_announcement. run.
      by rewrite teacher_resolves, Hd. }
  rewrite create_announcement_run by done.
  destruct (Collection.has_id _ _) eqn:Hid; [by right; right; left|].
  right; right; right. split_and!; [done| |done].
  by apply CollectionFacts.has_id_false.
Qed.

Lemma update_announcement_cases (db : database) (id m e u : string)
    (s : option string) (now : string) :
  let fields := update_fields m e u s now in
  update_announcement fromisoformat id m e u s now db
  = (inl InvalidCredentials, db)
  ∨ update_announcement fromisoformat id m e u s now db
    = (inl InvalidDateFormat, db)
  ∨ update_announcement fromisoformat id m e u s now db
    = (inl (InvalidId id), db)
  ∨ (∃ oid, Bson.of_str id = Some oid
       ∧ absent oid (announcements_collection db)
       ∧ update_announcement fromisoformat id m e u s now db
         = (inl NotFound,
            logged db (announcements_collection db)
              (update_calls oid fields s)))
  ∨ (∃ oid l1 old l2, Bson.of_str id = Some oid
       ∧ announcements_collection db = l1 ++ old :: l2
       ∧ absent oid l1 ∧ old !! "_id" = Some (VOid oid)
       ∧ update_announcement fromisoformat id m e u s now db
         = (inr (<["_id" := VStr (Bson.to_str oid)]>
                   (updated_record fields s old)),
            logged db (l1 ++ updated_record fields s old :: l2)
              (update_calls oid fields s
               ++ [CFindOne (QEq "_id" (VOid oid))]))).
Proof.
  intros fields.
  destruct (decide (resolves db u)) as [Hres|Hres];
    [|left; by apply update_announcement_unknown_teacher].
  destruct (dates_parse fromisoformat e s) eqn:Hd;
    [|right; left; by apply update_announcement_bad_dates].
  destruct (Bson.of_str id) as [oid|] eqn:Hid;
    [|right; right; left; by apply update_announcement_malformed].
  destruct (CollectionFacts.first_named oid (announcements_collection db))
    as [Habs|(l1 & old & l2 & Hc & Hl1 & Hold)].
  - right; right; right; left. exists oid.
    split_and!; [done|done|by apply update_announcement_absent].
  - right; right; right; right. exists oid, l1, old, l2.
    split_and!; try done.
    by apply (update_announcement_found fromisoformat db id m e u s now
                oid l1 l2 old).
Qed.

End HandlerCases.

(** ** The store invariant *)

Lemma ids_app (c1 c2 : list document) : ids (c1 ++ c2) = ids c1 ++ ids c2.
Proof. unfold ids. apply fmap_app. Qed.

Lemma absent_ids (oid : ObjectId) (c : list document) :
  absent oid c ↔ Some (VOid oid) ∉ ids c.
Proof.
  unfold absent, ids. rewrite list_elem_of_fmap. split.
  - intros H (d & Heq & Hd). by apply (H d).
  - intros H d Hd Heq. apply H. by exists d.
Qed.

Lemma consistent_append (c : list document) (oid : ObjectId)
    (record : document) :
  consistent c → absent oid c →
  consistent (c ++ [<["_id" := VOid oid]> record]).
Proof.
  intros [Hwf Hnd] Habs. split.
  - apply Forall_app. split; [done|]. apply Forall_singleton.
    rewrite lookup_insert_eq. eauto.
  - rewrite ids_app. apply NoDup_app. split_and!; [done| |].
    + intros x Hx Hx'. cbn in Hx'. rewrite lookup_insert_eq in Hx'.
      apply list_elem_of_singleton in Hx' as ->. by apply absent_ids in Habs.
    + cbn. apply NoDup_singleton.
Qed.

Lemma consistent_replace (l1 l2 : list document) (old new : document) :
  new !! "_id" = old !! "_id" →
  consistent (l1 ++ old :: l2) → consistent (l1 ++ new :: l2).
Proof.
  intros Hid [Hwf Hnd]. unfold consistent, well_formed in *. split.
  - rewrite Forall_app, Forall_cons in *. by rewrite Hid.
  - rewrite ids_app in *. cbn in *. by rewrite Hid.
Qed.

Lemma consistent_remove (l1 l2 : list document) (old : document) :
  consistent (l1 ++ old :: l2) → consistent (l1 ++ l2).
Proof.
  intros [Hwf Hnd]. unfold consistent, well_formed in *. split.
  - rewrite Forall_app, Forall_cons in *. by destruct Hwf as (? & _ & ?).
  - rewrite ids_app in *. cbn in Hnd.
    apply NoDup_app in Hnd as (H1 & H2 & H3).
    apply NoDup_cons in H3 as [_ H3]. apply NoDup_app. split_and!; [done| |done].
    intros x Hx Hx'. apply (H2 x Hx). by right.
Qed.

(** With unique identifiers, the document found first is the only one. *)
Lemma absent_after (oid : ObjectId) (l1 l2 : list document)
    (old : document) :
  NoDup (ids (l1 ++ old :: l2)) → old !! "_id" = Some (VOid oid) →
  absent oid l1 → absent oid (l1 ++ l2).
Proof.
  intros Hnd Hold Hl1. rewrite ids_app in Hnd. cbn in Hnd.
  apply NoDup_app in Hnd as (_ & _ & H3).
  apply NoDup_cons in H3 as [H3 _]. rewrite Hold in H3.
  intros d [Hd|Hd]%elem_of_app; [by apply Hl1|].
  intros Heq. apply H3. unfold ids. apply list_elem_of_fmap. by exists d.
Qed.

(** ** Properties of every request *)

Section Requests.

Variable fromisoformat : string → bool.

(** Brings the outcome of a request to one of the forms of its handler. *)
Ltac by_cases r db :=
  destruct r as [now|u|m e u s now fresh|id m e u s now|id u];
  cbn [serve];
  [ destruct (get_active_announcements_cases now db) as [H|H]
  | destruct (get_all_announcements_cases u db) as [H|[H|[H|H]]]
  | destruct (create_announcement_cases fromisoformat db m e u s now fresh)
      as [H|[H|[H|(Hres & Habs & H)]]]
  | destruct (update_announcement_cases fromisoformat db id m e u s now)
      as [H|[H|[H|[(oid & Hid & Habs & H)
                  |(oid & l1 & old & l2 & Hid & Hc & Hl1 & Hold & H)]]]]
  | destruct (delete_announcement_cases db id u)
      as [H|[H|[(oid & Hid & Habs & H)
               |(oid & l1 & old & l2 & Hid & Hres & Hc & Hl1 & Hold & H)]]] ];
  lazymatch goal with Heq : _ = (_, _) |- _ => rewrite Heq end;
  unfold outcome, logged;
  cbn [fst snd announcements_collection teachers_collection calls].

(** X1.  A request that its handler answers with an HTTP error (401, 400
    or 404) leaves the stored announcements and the teachers exactly as they
    were.  That includes the 404 of [update] and [delete], which is only
    raised after the store has been asked: the [$unset] and [$set] that
    [update] has issued by then have changed no record.  (The handlers are
    run one at a time here, and a failure of the store itself is not one of
    these errors.) *)
Theorem http_error_keeps_announcements (r : request) (db : database)
    (status_code : Z) (detail : string) :
  (serve fromisoformat r db).1 = Some (HTTPException status_code detail) →
  announcements_collection (serve fromisoformat r db).2
  = announcements_collection db
  ∧ teachers_collection (serve fromisoformat r db).2 = teachers_collection db
  ∧ (status_code = 404%Z →
     ∃ op ops, calls (serve fromisoformat r db).2 = calls db ++ op :: ops).
Proof.
  by_cases r db; intros He; try discriminate He;
    (split; [reflexivity|]); (split; [reflexivity|]); intros Hcode;
    try (injection He as <- _; discriminate Hcode).
  - unfold update_calls. destruct (Str.truthy_opt s); cbn [app]; eauto.
  - eauto.
Qed.

(** X2.  A request answered with status 401 or 400 has touched nothing:
    the database, log of store operations included, is exactly as before. *)
Theorem rejected_request_issues_nothing (r : request) (db : database)
    (status_code : Z) (detail : string) :
  (serve fromisoformat r db).1 = Some (HTTPException status_code detail) →
  status_code = 401%Z ∨ status_code = 400%Z →
  (serve fromisoformat r db).2 = db.
Proof.
  intros He Hcode. revert He.
  by_cases r db; intros He; try reflexivity; try discriminate He.
  all: unfold NotFound in He; injection He as <- _;
    destruct Hcode; discriminate.
Qed.

(** X3.  Every request keeps the invariant of the store: if all
    announcements carry an identifier and no two share one before the
    request, the same holds after it, whatever its outcome. *)
Theorem requests_keep_store_consistent (r : request) (db : database) :
  consistent (announcements_collection db) →
  consistent (announcements_collection (serve fromisoformat r db).2).
Proof.
  intros Hcons. by_cases r db; try done.
  - by apply consistent_append.
  - rewrite Hc in Hcons.
    apply (consistent_replace l1 l2 old); [|done].
    rewrite Hold. by apply updated_record_id; [apply update_fields_id|].
  - rewrite Hc in Hcons. by apply (consistent_remove l1 l2 old).
Qed.

End Requests.

(** ** How the operations compose *)

Lemma resolves_logged (db : database) (c : list document) (cs : list call)
    (u : string) :
  resolves (logged db c cs) u ↔ resolves db u.
Proof. done. Qed.

(** X4.  With unique identifiers, deleting the same announcement a second
    time fails with NotFound and changes nothing more. *)
Theorem second_delete_not_found (db db' : database) (id u : string)
    (confirmation : gmap string string) :
  NoDup (ids (announcements_collection db)) →
  delete_announcement id u db = (inr confirmation, db') →
  (delete_announcement id u db').1 = inl NotFound
  ∧ announcements_collection (delete_announcement id u db').2
    = announcements_collection db'.
Proof.
  intros Hnd Hrun.
  destruct (delete_announcement_cases db id u)
    as [H|[H|[(oid & Hid & Habs & H)
             |(oid & l1 & old & l2 & Hid & Hres & Hc & Hl1 & Hold & H)]]];
    rewrite H in Hrun; try discriminate Hrun.
  injection Hrun as <- <-.
  rewrite (delete_announcement_absent _ id u oid); [done|done|done|].
  cbn [logged announcements_collection]. rewrite Hc in Hnd.
  by apply (absent_after oid l1 l2 old).
Qed.

Section Compositions.

Variable fromisoformat : string → bool.

Lemma create_announcement_success (db db' : database) (m e u : string)
    (s : option string) (now : string) (fresh : ObjectId) (a : document) :
  create_announcement fromisoformat m e u s now fresh db = (inr a, db') →
  let record := created_record m e u s now in
  resolves db u ∧ absent fresh (announcements_collection db)
  ∧ a = <["_id" := VStr (Bson.to_str fresh)]> record
  ∧ db' = logged db
            (announcements_collection db ++ [<["_id" := VOid fresh]> record])
            [CInsertOne record].
Proof.
  intros Hrun record.
  destruct (create_announcement_cases fromisoformat db m e u s now fresh)
    as [H|[H|[H|(Hres & Habs & H)]]];
    rewrite H in Hrun; try discriminate Hrun.
  by injection Hrun as <- <-.
Qed.

(** X5.  [create] keeps every stored announcement in place and appends
    exactly one record: the returned one with its native identifier,
    carrying [created_by] = the teacher, [created_at] = the clock reading
    followed by Z, and [start_date] only when a non-empty one was given. *)
Theorem create_appends_one_record (db db' : database) (m e u : string)
    (s : option string) (now : string) (fresh : ObjectId) (a : document) :
  create_announcement fromisoformat m e u s now fresh db = (inr a, db') →
  ∃ r,
    announcements_collection db' = announcements_collection db ++ [r]
    ∧ surface r = a
    ∧ r !! "_id" = Some (VOid fresh)
    ∧ r !! "created_by" = Some (VStr u)
    ∧ r !! "created_at" = Some (VStr (now +:+ "Z"))
    ∧ r !! "start_date" = (if Str.truthy_opt s then VStr <$> s else None)
    ∧ dom r = {[ "_id"; "message"; "expiration_date"; "created_by";
                 "created_at" ]}
              ∪ (if Str.truthy_opt s then {[ "start_date" ]} else ∅).
Proof.
  intros Hrun.
  apply create_announcement_success in Hrun as (_ & _ & -> & ->).
  destruct (created_record_fields m e u s now) as (_ & _ & Hby & Hat & Hs).
  eexists. split; [reflexivity|]. split_and!.
  - rewrite (surface_named _ (VOid fresh)) by apply lookup_insert_eq.
    by rewrite insert_insert_eq.
  - apply lookup_insert_eq.
  - by rewrite lookup_insert_ne.
  - by rewrite lookup_insert_ne.
  - by rewrite lookup_insert_ne.
  - unfold created_record. destruct (Str.truthy_opt s);
      rewrite ?dom_insert_L, dom_singleton_L; set_solver.
Qed.

(** X6.  Deleting the identifier that a successful [create] returned, as
    the same teacher, succeeds and brings the announcements back to what
    they were before the creation. *)
Theorem delete_undoes_create (db db' : database) (m e u : string)
    (s : option string) (now : string) (fresh : ObjectId) (a : document)
    (id : string) :
  Bson.generated fresh →
  create_announcement fromisoformat m e u s now fresh db = (inr a, db') →
  a !! "_id" = Some (VStr id) →
  ∃ db'',
    delete_announcement id u db'
    = (inr {[ "message" := "Announcement deleted successfully" ]}, db'')
    ∧ announcements_collection db'' = announcements_collection db.
Proof.
  intros Hgen Hrun Hid.
  apply create_announcement_success in Hrun as (Hres & Habs & -> & ->).
  rewrite lookup_insert_eq in Hid. injection Hid as <-.
  eexists. split.
  - apply (delete_announcement_found _ _ u fresh
             (announcements_collection db) []
             (<["_id" := VOid fresh]> (created_record m e u s now)));
      try done.
    + by apply BsonFacts.of_str_to_str.
    + apply lookup_insert_eq.
  - cbn [logged announcements_collection]. apply app_nil_r.
Qed.

(** X7.  After a successful [create], [list_all] (for any non-empty teacher
    that resolves) succeeds, shows the record exactly as [create] returned
    it, and has one record more than were stored before. *)
Theorem created_record_is_listed (db db' : database) (m e u : string)
    (s : option string) (now : string) (fresh : ObjectId) (a : document)
    (t : string) :
  well_formed (announcements_collection db) →
  create_announcement fromisoformat m e u s now fresh db = (inr a, db') →
  t ≠ "" → resolves db t →
  ∃ result,
    (get_all_announcements (Some t) db').1 = inr result
    ∧ a ∈ result
    ∧ length result = S (length (announcements_collection db)).
Proof.
  intros Hwf Hrun Ht Hres.
  apply create_announcement_success in Hrun as (_ & _ & -> & ->).
  set (record := created_record m e u s now).
  set (c' := announcements_collection db ++ [<["_id" := VOid fresh]> record]).
  assert (Hwf' : well_formed c').
  { apply Forall_app. split; [done|]. apply Forall_singleton.
    rewrite lookup_insert_eq. eauto. }
  rewrite get_all_announcements_run; [|done|done|done].
  eexists. split; [reflexivity|].
  cbn [logged announcements_collection]. fold c'.
  assert (Hperm : surface <$> Collection.sort_desc "created_at"
                                (Collection.find QAll c')
                  ≡ₚ surface <$> c').
  { rewrite find_all. unfold Collection.sort_desc.
    by rewrite merge_sort_Permutation. }
  split.
  - rewrite Hperm. apply list_elem_of_fmap.
    exists (<["_id" := VOid fresh]> record). split.
    + rewrite (surface_named _ (VOid fresh)) by apply lookup_insert_eq.
      by rewrite insert_insert_eq.
    + apply elem_of_app. right. by left.
  - rewrite Hperm, length_fmap. unfold c'. rewrite length_app. cbn. lia.
Qed.


(** An update overwrites everything an earlier update wrote. *)
Lemma updated_record_twice (m1 e1 u1 : string) (s1 : option string)
    (now1 : string) (m2 e2 u2 : string) (s2 : option string) (now2 : string)
    (old : document) :
  updated_record (update_fields m2 e2 u2 s2 now2) s2
    (updated_record (update_fields m1 e1 u1 s1 now1) s1 old)
  = updated_record (update_fields m2 e2 u2 s2 now2) s2 old.
Proof.
  destruct (updated_record_fields fromisoformat m2 e2 u2 s2 now2
              (updated_record (update_fields m1 e1 u1 s1 now1) s1 old))
    as (Hm & He & Hby & Hat & Hs & Hk).
  destruct (updated_record_fields fromisoformat m2 e2 u2 s2 now2 old)
    as (Hm' & He' & Hby' & Hat' & Hs' & Hk').
  destruct (updated_record_fields fromisoformat m1 e1 u1 s1 now1 old)
    as (_ & _ & _ & _ & _ & Hk1).
  apply map_eq. intros k.
  destruct (decide (k ∈ written)) as [Hin|Hout].
  - unfold written in Hin. rewrite !elem_of_cons in Hin.
    destruct Hin as [->|[->|[->|[->|[->|Hin]]]]]; [congruence..|].
    by apply elem_of_nil in Hin.
  - by rewrite Hk, Hk', Hk1.
Qed.

(** The answer of [update] and the announcements it leaves depend on the
    two collections only, not on the log. *)
Lemma update_announcement_ext (db1 db2 : database) (id m e u : string)
    (s : option string) (now : string) :
  teachers_collection db1 = teachers_collection db2 →
  announcements_collection db1 = announcements_collection db2 →
  (update_announcement fromisoformat id m e u s now db1).1
  = (update_announcement fromisoformat id m e u s now db2).1
  ∧ announcements_collection
      (update_announcement fromisoformat id m e u s now db1).2
    = announcements_collection
        (update_announcement fromisoformat id m e u s now db2).2.
Proof.
  intros Ht Ha.
  assert (Hres : resolves db1 u ↔ resolves db2 u)
    by (unfold resolves; by rewrite Ht).
  destruct (decide (resolves db1 u)) as [H1|H1].
  2:{ rewrite !update_announcement_unknown_teacher by tauto. done. }
  assert (H2 : resolves db2 u) by tauto.
  destruct (dates_parse fromisoformat e s) eqn:Hd.
  2:{ by rewrite !update_announcement_bad_dates. }
  destruct (Bson.of_str id) as [oid|] eqn:Hid.
  2:{ by rewrite !update_announcement_malformed. }
  destruct (CollectionFacts.first_named oid (announcements_collection db1))
    as [Habs|(l1 & old & l2 & Hc & Hl1 & Hold)].
  - rewrite (update_announcement_absent _ db1 _ _ _ _ _ _ oid) by done.
    rewrite (update_announcement_absent _ db2 _ _ _ _ _ _ oid)
      by (by rewrite <- ?Ha).
    done.
  - rewrite (update_announcement_found _ db1 _ _ _ _ _ _ oid l1 l2 old)
      by done.
    rewrite (update_announcement_found _ db2 _ _ _ _ _ _ oid l1 l2 old)
      by (by rewrite <- ?Ha).
    done.
Qed.

(** X8.  Last write wins: when a second [update] of the same identifier
    passes its teacher and date checks, its answer and the announcements it
    leaves are the same whether or not another [update] of that identifier
    ran just before it. *)
Theorem last_update_wins (db : database) (id : string)
    (m1 e1 u1 : string) (s1 : option string) (now1 : string)
    (m2 e2 u2 : string) (s2 : option string) (now2 : string) :
  resolves db u2 →
  parses fromisoformat e2 →
  (∀ sd, s2 = Some sd → sd ≠ "" → parses fromisoformat sd) →
  let db1 := (update_announcement fromisoformat id m1 e1 u1 s1 now1 db).2 in
  (update_announcement fromisoformat id m2 e2 u2 s2 now2 db1).1
  = (update_announcement fromisoformat id m2 e2 u2 s2 now2 db).1
  ∧ announcements_collection
      (update_announcement fromisoformat id m2 e2 u2 s2 now2 db1).2
    = announcements_collection
        (update_announcement fromisoformat id m2 e2 u2 s2 now2 db).2.
Proof.
  intros Hres He Hs db1. subst db1.
  assert (Hd : dates_parse fromisoformat e2 s2 = true)
    by (by apply dates_parse_true).
  destruct (update_announcement_cases fromisoformat db id m1 e1 u1 s1 now1)
    as [H|[H|[H|[(oid & Hid & Habs & H)
                |(oid & l1 & old & l2 & Hid & Hc & Hl1 & Hold & H)]]]];
    rewrite H; cbn [snd]; try done.
  - by apply update_announcement_ext.
  - set (new1 := updated_record (update_fields m1 e1 u1 s1 now1) s1 old).
    assert (Hnew1 : new1 !! "_id" = Some (VOid oid))
      by (by apply updated_record_id; [apply update_fields_id|]).
    rewrite (update_announcement_found _ _ _ _ _ _ _ _ oid l1 l2 new1)
      by done.
    rewrite (update_announcement_found _ db _ _ _ _ _ _ oid l1 l2 old)
      by done.
    cbn [fst snd logged announcements_collection]. subst new1.
    by rewrite updated_record_twice.
Qed.

(** X9.  [update] checks in a fixed order, whatever the identifier, even a
    malformed one: an unknown teacher gives InvalidCredentials; then a date
    that does not parse gives InvalidDateFormat; the identifier is only
    looked at after both.  Nothing is written in either case. *)
Theorem update_checks_in_order (db : database) (id m e u : string)
    (s : option string) (now : string) :
  (¬ resolves db u →
   update_announcement fromisoformat id m e u s now db
   = (inl InvalidCredentials, db))
  ∧ (resolves db u →
     ¬ parses fromisoformat e
     ∨ (∃ sd, s = Some sd ∧ sd ≠ "" ∧ ¬ parses fromisoformat sd) →
     update_announcement fromisoformat id m e u s now db
     = (inl InvalidDateFormat, db)).
Proof.
  split.
  - apply update_announcement_unknown_teacher.
  - intros Hres Hbad. apply update_announcement_bad_dates; [done|].
    by apply dates_parse_false.
Qed.

(** X10.  Whatever [list_active], [list_all], [create] or [update] return,
    every returned record has a string as its [_id], never a native
    ObjectId. *)
Theorem returned_identifiers_are_strings (db db' : database) :
  (∀ utcnow result,
     get_active_announcements utcnow db = (inr result, db') →
     Forall (λ r : document, ∃ id, r !! "_id" = Some (VStr id)) result)
  ∧ (∀ u result,
       get_all_announcements u db = (inr result, db') →
       Forall (λ r : document, ∃ id, r !! "_id" = Some (VStr id)) result)
  ∧ (∀ m e u s now fresh a,
       create_announcement fromisoformat m e u s now fresh db = (inr a, db') →
       ∃ id, a !! "_id" = Some (VStr id))
  ∧ (∀ id m e u s now a,
       update_announcement fromisoformat id m e u s now db = (inr a, db') →
       ∃ id', a !! "_id" = Some (VStr id')).
Proof.
  assert (Hlist : ∀ (l result : list document) (d1 d2 : database),
             for_each stringify_id l d1 = (inr result, d2) →
             Forall (λ r : document, ∃ id, r !! "_id" = Some (VStr id))
               result).
  { intros l. induction l as [|d l IH]; intros result d1 d2.
    - cbn. unfold ret. intros [= <- _]. constructor.
    - rewrite for_each_stringify_cons.
      destruct (d !! "_id") as [v|]; [|discriminate].
      destruct (for_each stringify_id l d1) as [[exc|ys] d3] eqn:Hl;
        [discriminate|].
      intros [= <- _]. constructor; [|by eapply IH].
      eexists. apply lookup_insert_eq. }
  split_and!.
  - intros utcnow result. unfold get_active_announcements. run.
    apply Hlist.
  - intros u result. unfold get_all_announcements.
    destruct (negb (Str.truthy_opt u)); [discriminate|]. run.
    destruct (not_found _); [discriminate|]. apply Hlist.
  - intros m e u s now fresh a Hrun.
    apply create_announcement_success in Hrun as (_ & _ & -> & _).
    eexists. apply lookup_insert_eq.
  - intros id m e u s now a Hrun.
    apply update_announcement_inv in Hrun
      as (oid & old & l1 & l2 & _ & _ & _ & _ & -> & _).
    eexists. apply lookup_insert_eq.
Qed.

End Compositions.

(** ** The two listings *)

Lemma filter_sublist (f : document → bool) (c : list document) :
  List.filter f c `sublist_of` c.
Proof.
  induction c as [|d c IH]; [constructor|].
  cbn [List.filter]. destruct (f d); by constructor.
Qed.

Lemma listing_permutation (q : query) (c : list document) :
  surface <$> Collection.sort_desc "created_at" (Collection.find q c)
  ≡ₚ surface <$> List.filter (matches q) c.
Proof.
  unfold Collection.sort_desc, Collection.find.
  by rewrite merge_sort_Permutation.
Qed.

(** X11.  On a store whose documents carry their identifier, and for a
    non-empty teacher that resolves, both listings succeed and everything
    [list_active] returns is also returned by [list_all], as many times. *)
Theorem active_listing_within_all (utcnow u : string) (db : database) :
  well_formed (announcements_collection db) →
  u ≠ "" → resolves db u →
  ∃ active_result all_result,
    (get_active_announcements utcnow db).1 = inr active_result
    ∧ (get_all_announcements (Some u) db).1 = inr all_result
    ∧ active_result ⊆+ all_result.
Proof.
  intros Hwf Hu Hres.
  rewrite get_active_announcements_run, get_all_announcements_run by done.
  eexists _, _. split_and!; [reflexivity|reflexivity|].
  rewrite !listing_permutation.
  apply fmap_submseteq. etrans.
  - apply sublist_submseteq, filter_sublist.
  - apply sublist_submseteq.
    change (List.filter (matches QAll) (announcements_collection db))
      with (Collection.find QAll (announcements_collection db)).
    by rewrite find_all.
Qed.

(** X12.  The active window is closed at both ends: a stored announcement
    whose [expiration_date] is exactly the current time string, and whose
    [start_date] is missing or exactly that string too, is listed. *)
Theorem active_window_is_inclusive (utcnow : string) (db : database)
    (d : document) :
  well_formed (announcements_collection db) →
  d ∈ announcements_collection db →
  d !! "expiration_date" = Some (VStr (utcnow +:+ "Z")) →
  d !! "start_date" = None
  ∨ d !! "start_date" = Some (VStr (utcnow +:+ "Z")) →
  ∃ result,
    (get_active_announcements utcnow db).1 = inr result
    ∧ surface d ∈ result.
Proof.
  intros Hwf Hd Hexp Hstart.
  rewrite get_active_announcements_run by done.
  eexists. split; [reflexivity|].
  rewrite listing_permutation. apply list_elem_of_fmap. exists d.
  split; [done|]. apply list_elem_of_In, filter_In.
  split; [by apply list_elem_of_In|].
  rewrite matches_active_query. unfold is_active. rewrite Hexp.
  assert (Hrefl : String.leb (utcnow +:+ "Z") (utcnow +:+ "Z") = true)
    by (by apply leb_le).
  destruct Hstart as [-> | ->]; by rewrite ?Hrefl.
Qed.

(** X13.  [list_all] only checks that the teacher exists: any two
    non-empty usernames that resolve get the same answer and leave the
    same database. *)
Theorem list_all_same_for_every_teacher (u1 u2 : string) (db : database) :
  u1 ≠ "" → u2 ≠ "" → resolves db u1 → resolves db u2 →
  get_all_announcements (Some u1) db = get_all_announcements (Some u2) db.
Proof.
  intros H1 H2 Hr1 Hr2. unfold get_all_announcements.
  destruct u1 as [|a1 u1]; [done|]. destruct u2 as [|a2 u2]; [done|].
  cbn [Str.truthy_opt Str.truthy negb from_option id]. run.
  by rewrite !teacher_resolves.
Qed.

(** ** The further properties on the sample database *)

Module SampleRuns.
Import Sample.

Example create_hello :
  create_announcement Datetime.fromisoformat "Hello" "2030-01-01T00:00:00Z"
    "mrodriguez" None utcnow oid3 db
  = (inr hello, db_hello).
Proof. vm_compute. reflexivity. Qed.

Example delete_exams :
  delete_announcement id1 "mrodriguez" db
  = (inr {[ "message" := "Announcement deleted successfully" ]},
     logged db [fair] [CDeleteOne (QEq "_id" (VOid oid1))]).
Proof. vm_compute. reflexivity. Qed.

Example sample_consistent : consistent (announcements_collection db).
Proof. split; SampleFacts.evaluate. Qed.

End SampleRuns.

Lemma http_error_keeps_announcements_witness :
  let r := Put Sample.id3 "Updated" "2031-01-01T00:00:00Z" "mrodriguez" None
             Sample.utcnow in
  announcements_collection (serve Datetime.fromisoformat r Sample.db).2
  = announcements_collection Sample.db
  ∧ teachers_collection (serve Datetime.fromisoformat r Sample.db).2
    = teachers_collection Sample.db
  ∧ (404%Z = 404%Z →
     ∃ op ops,
       calls (serve Datetime.fromisoformat r Sample.db).2
       = calls Sample.db ++ op :: ops).
Proof.
  intros r.
  apply (http_error_keeps_announcements Datetime.fromisoformat r Sample.db
           404 "Announcement not found").
  vm_compute. reflexivity.
Defined.

Lemma rejected_request_issues_nothing_witness :
  (serve Datetime.fromisoformat
     (Post "Hello" "not-a-date" "mrodriguez" None Sample.utcnow Sample.oid3)
     Sample.db).2
  = Sample.db.
Proof.
  apply (rejected_request_issues_nothing Datetime.fromisoformat
           (Post "Hello" "not-a-date" "mrodriguez" None Sample.utcnow
              Sample.oid3)
           Sample.db 400 "Invalid date format. Use ISO 8601 format").
  - vm_compute. reflexivity.
  - right. reflexivity.
Defined.

Lemma requests_keep_store_consistent_witness :
  consistent
    (announcements_collection
       (serve Datetime.fromisoformat
          (Post "Hello" "2030-01-01T00:00:00Z" "mrodriguez" None
             Sample.utcnow Sample.oid3)
          Sample.db).2).
Proof.
  apply (requests_keep_store_consistent Datetime.fromisoformat).
  split; SampleFacts.evaluate.
Defined.

Lemma second_delete_not_found_witness :
  let db' := logged Sample.db [Sample.fair]
               [CDeleteOne (QEq "_id" (VOid Sample.oid1))] in
  (delete_announcement Sample.id1 "mrodriguez" db').1 = inl NotFound
  ∧ announcements_collection
      (delete_announcement Sample.id1 "mrodriguez" db').2
    = announcements_collection db'.
Proof.
  apply (second_delete_not_found Sample.db _ Sample.id1 "mrodriguez"
           {[ "message" := "Announcement deleted successfully" ]}).
  - SampleFacts.evaluate.
  - vm_compute. reflexivity.
Defined.

Lemma create_appends_one_record_witness :
  ∃ r,
    announcements_collection Sample.db_hello
    = announcements_collection Sample.db ++ [r]
    ∧ surface r = Sample.hello
    ∧ r !! "_id" = Some (VOid Sample.oid3)
    ∧ r !! "created_by" = Some (VStr "mrodriguez")
    ∧ r !! "created_at" = Some (VStr (Sample.utcnow +:+ "Z"))
    ∧ r !! "start_date" = None
    ∧ dom r = {[ "_id"; "message"; "expiration_date"; "created_by";
                 "created_at" ]} ∪ ∅.
Proof.
  apply (create_appends_one_record Datetime.fromisoformat Sample.db
           Sample.db_hello "Hello" "2030-01-01T00:00:00Z" "mrodriguez" None
           Sample.utcnow Sample.oid3 Sample.hello).
  vm_compute. reflexivity.
Defined.

Lemma delete_undoes_create_witness :
  ∃ db'',
    delete_announcement Sample.id3 "mrodriguez" Sample.db_hello
    = (inr {[ "message" := "Announcement deleted successfully" ]}, db'')
    ∧ announcements_collection db'' = announcements_collection Sample.db.
Proof.
  apply (delete_undoes_create Datetime.fromisoformat Sample.db
           Sample.db_hello "Hello" "2030-01-01T00:00:00Z" "mrodriguez" None
           Sample.utcnow Sample.oid3 Sample.hello Sample.id3).
  - reflexivity.
  - vm_compute. reflexivity.
  - vm_compute. reflexivity.
Defined.

Lemma created_record_is_listed_witness :
  ∃ result,
    (get_all_announcements (Some "mchen") Sample.db_hello).1 = inr result
    ∧ Sample.hello ∈ result
    ∧ length result = S (length (announcements_collection Sample.db)).
Proof.
  apply (created_record_is_listed Datetime.fromisoformat Sample.db
           Sample.db_hello "Hello" "2030-01-01T00:00:00Z" "mrodriguez" None
           Sample.utcnow Sample.oid3 Sample.hello "mchen").
  - SampleFacts.evaluate.
  - vm_compute. reflexivity.
  - discriminate.
  - SampleFacts.evaluate.
Defined.

Lemma last_update_wins_witness :
  let first := update_announcement Datetime.fromisoformat Sample.id1
                 "Postponed" "2031-01-01" "mchen" (Some "2025-03-01")
                 "2025-02-01T09:00:00" in
  let second := update_announcement Datetime.fromisoformat Sample.id1
                  "Exams start on Tuesday" "2031-06-30T00:00:00Z"
                  "mrodriguez" None "2025-02-02T09:00:00" in
  (second (first Sample.db).2).1 = (second Sample.db).1
  ∧ announcements_collection (second (first Sample.db).2).2
    = announcements_collection (second Sample.db).2.
Proof.
  apply (last_update_wins Datetime.fromisoformat Sample.db Sample.id1
           "Postponed" "2031-01-01" "mchen" (Some "2025-03-01")
           "2025-02-01T09:00:00"
           "Exams start on Tuesday" "2031-06-30T00:00:00Z" "mrodriguez" None
           "2025-02-02T09:00:00").
  - SampleFacts.evaluate.
  - reflexivity.
  - intros sd Hsd. discriminate Hsd.
Defined.

Lemma update_checks_in_order_witness :
  update_announcement Datetime.fromisoformat "abc" "Updated" "next week"
    "mrodriguez" None Sample.utcnow Sample.db
  = (inl InvalidDateFormat, Sample.db)
  ∧ update_announcement Datetime.fromisoformat "abc" "Updated" "next week"
      "nobody" None Sample.utcnow Sample.db
    = (inl InvalidCredentials, Sample.db).
Proof.
  split.
  - apply (update_checks_in_order Datetime.fromisoformat Sample.db "abc");
      [SampleFacts.evaluate|]. left. discriminate.
  - apply (update_checks_in_order Datetime.fromisoformat Sample.db "abc").
    SampleFacts.evaluate.
Defined.

Lemma returned_identifiers_are_strings_witness :
  ∃ id, Sample.hello !! "_id" = Some (VStr id).
Proof.
  destruct (returned_identifiers_are_strings Datetime.fromisoformat
              Sample.db Sample.db_hello) as (_ & _ & H & _).
  apply (H "Hello" "2030-01-01T00:00:00Z" "mrodriguez" None Sample.utcnow
           Sample.oid3 Sample.hello).
  vm_compute. reflexivity.
Defined.

Lemma active_listing_within_all_witness :
  ∃ active_result all_result,
    (get_active_announcements Sample.utcnow Sample.db).1 = inr active_result
    ∧ (get_all_announcements (Some "mchen") Sample.db).1 = inr all_result
    ∧ active_result ⊆+ all_result.
Proof.
  apply (active_listing_within_all Sample.utcnow "mchen" Sample.db).
  - SampleFacts.evaluate.
  - discriminate.
  - SampleFacts.evaluate.
Defined.

Lemma active_window_is_inclusive_witness :
  ∃ result,
    (get_active_announcements "2023-03-01T00:00:00" Sample.db).1 = inr result
    ∧ surface Sample.fair ∈ result.
Proof.
  apply (active_window_is_inclusive "2023-03-01T00:00:00" Sample.db
           Sample.fair).
  - SampleFacts.evaluate.
  - apply list_elem_of_In. left. reflexivity.
  - reflexivity.
  - left. reflexivity.
Defined.

Lemma list_all_same_for_every_teacher_witness :
  get_all_announcements (Some "mrodriguez") Sample.db
  = get_all_announcements (Some "mchen") Sample.db.
Proof.
  apply (list_all_same_for_every_teacher "mrodriguez" "mchen" Sample.db).
  - discriminate.
  - discriminate.
  - SampleFacts.evaluate.
  - SampleFacts.evaluate.
Defined.

